(** * The ROM data updater (update_rom_data.py)

    The script opens a spreadsheet workbook, reads a few rows of three
    named sheets, merges them with hand-curated constants and writes the
    result as JSON.  This file embeds the script: Python values and the
    built-ins it calls ([Py]), the part of openpyxl it relies on
    ([Openpyxl]), the document it builds and the functions
    [find_rom_file], [extract_rom_data], [save_json] and [main]. *)

From Stdlib Require Import ZArith List String Ascii Bool Lia.
From Stdlib Require Import Floats.SpecFloat DecimalString.
Import ListNotations.

Local Open Scope string_scope.
Local Open Scope Z_scope.

(** ** Python values and built-ins *)

Module Py.

(** The exceptions the script can meet.  [LoadError] stands for whatever
    [openpyxl.load_workbook] raises on an unreadable file, [OSError] for
    what the file system raises (it covers its subclasses, such as
    [FileExistsError] and [FileNotFoundError]). *)
Inductive exn : Type :=
| TypeError | ValueError | IndexError | OverflowError | KeyError | LoadError
| OSError | UnicodeEncodeError.

Inductive result (A : Type) : Type :=
| Ok (a : A)
| Raise (e : exn).
Arguments Ok {A} a.
Arguments Raise {A} e.

Definition bind {A B : Type} (c : result A) (k : A -> result B) : result B :=
  match c with
  | Ok a => k a
  | Raise e => Raise e
  end.

(** [for x in xs: acc = step(acc, x)], stopping at the first exception. *)
Fixpoint for_each {A S : Type} (step : S -> A -> result S) (xs : list A) (acc : S)
  : result S :=
  match xs with
  | [] => Ok acc
  | x :: rest => bind (step acc x) (for_each step rest)
  end.

(** *** Floats: IEEE binary64 *)

Definition float : Type := spec_float.

(** [float(n)] for an [int]: round to nearest even, [OverflowError] when
    the rounded value does not fit. *)
Definition float_of_int (n : Z) : result float :=
  match binary_normalize 53 1024 n 0 false with
  | S754_infinity _ => Raise OverflowError
  | x => Ok x
  end.

(** A decimal literal [n / 10^k] of the source text, for [n] and [10^k]
    below [2^53]: both are exact, and the division rounds once. *)
Definition literal (n : Z) (k : nat) : float :=
  SFdiv 53 1024 (binary_normalize 53 1024 n 0 false)
                (binary_normalize 53 1024 (10 ^ Z.of_nat k) 0 false).

(** [bool(x)] for a float: only the two zeros are false. *)
Definition float_truthy (x : float) : bool :=
  match x with
  | S754_zero _ => false
  | _ => true
  end.

(** [int(x)] for a float: truncation toward zero. *)
Definition int_of_float (x : float) : result Z :=
  match x with
  | S754_zero _ => Ok 0
  | S754_infinity _ => Raise OverflowError
  | S754_nan => Raise ValueError
  | S754_finite s m e => Ok (cond_Zopp s (Z.shiftl (Zpos m) e))
  end.

(** *** Text

    A [str] is modelled on the code points below 256, one per
    character. *)

Definition code (c : ascii) : N := N_of_ascii c.

(** [str.isspace] on one character. *)
Definition is_space (c : ascii) : bool :=
  let n := code c in
  (((9 <=? n) && (n <=? 13)) || ((28 <=? n) && (n <=? 32))
   || (n =? 133) || (n =? 160))%N.

Definition lower_char (c : ascii) : ascii :=
  let n := code c in
  if (((65 <=? n) && (n <=? 90))
      || ((192 <=? n) && (n <=? 222) && negb (n =? 215)))%N
  then ascii_of_N (n + 32)
  else c.

(** [s.lower()] *)
Fixpoint lower (s : string) : string :=
  match s with
  | EmptyString => EmptyString
  | String c rest => String (lower_char c) (lower rest)
  end.

Fixpoint lstrip (s : string) : string :=
  match s with
  | EmptyString => EmptyString
  | String c rest => if is_space c then lstrip rest else s
  end.

Fixpoint rstrip (s : string) : string :=
  match s with
  | EmptyString => EmptyString
  | String c rest =>
      match rstrip rest with
      | EmptyString => if is_space c then EmptyString else String c EmptyString
      | kept => String c kept
      end
  end.

(** [s.strip()] *)
Definition strip (s : string) : string := rstrip (lstrip s).

(** [s.replace(c, "")] for a one-character [c]. *)
Fixpoint remove_char (c : ascii) (s : string) : string :=
  match s with
  | EmptyString => EmptyString
  | String d rest =>
      if Ascii.eqb d c then remove_char c rest else String d (remove_char c rest)
  end.

(** [needle in hay] *)
Fixpoint contains (needle hay : string) : bool :=
  String.prefix needle hay
  || match hay with
     | EmptyString => false
     | String _ rest => contains needle rest
     end.

Definition nonempty (s : string) : bool :=
  match s with
  | EmptyString => false
  | String _ _ => true
  end.

(** [str(n)] for an [int]. *)
Definition str_of_int (n : Z) : string := NilEmpty.string_of_int (Z.to_int n).

(** *** The values a cell can hold

    A text carries what [int(s)] and [float(s)] make of it ([None] when
    they raise [ValueError]), a float carries its [str()] form, and a
    date, time or duration carries its truth value and its [str()]
    form: the script observes nothing else of them. *)
Inductive value : Type :=
| VNone
| VBool (b : bool)
| VInt (n : Z)
| VFloat (x : float) (text : string)
| VText (s : string) (as_int : option Z) (as_float : option float)
| VTemporal (nonzero : bool) (text : string).

Definition is_none (v : value) : bool :=
  match v with
  | VNone => true
  | _ => false
  end.

(** [bool(v)], the test behind [if v] and [v and ...]. *)
Definition truthy (v : value) : bool :=
  match v with
  | VNone => false
  | VBool b => b
  | VInt n => negb (n =? 0)
  | VFloat x _ => float_truthy x
  | VText s _ _ => nonempty s
  | VTemporal nonzero _ => nonzero
  end.

(** [str(v)] *)
Definition str (v : value) : string :=
  match v with
  | VNone => "None"
  | VBool true => "True"
  | VBool false => "False"
  | VInt n => str_of_int n
  | VFloat _ text => text
  | VText s _ _ => s
  | VTemporal _ text => text
  end.

(** [int(v)] *)
Definition int (v : value) : result Z :=
  match v with
  | VNone => Raise TypeError
  | VBool b => Ok (if b then 1 else 0)
  | VInt n => Ok n
  | VFloat x _ => int_of_float x
  | VText _ (Some n) _ => Ok n
  | VText _ None _ => Raise ValueError
  | VTemporal _ _ => Raise TypeError
  end.

(** [float(v)] *)
Definition to_float (v : value) : result float :=
  match v with
  | VNone => Raise TypeError
  | VBool b => Ok (binary_normalize 53 1024 (if b then 1 else 0) 0 false)
  | VInt n => float_of_int n
  | VFloat x _ => Ok x
  | VText _ _ (Some x) => Ok x
  | VText _ _ None => Raise ValueError
  | VTemporal _ _ => Raise TypeError
  end.

(** [row[i]] on a tuple. *)
Definition getitem (row : list value) (i : nat) : result value :=
  match nth_error row i with
  | Some v => Ok v
  | None => Raise IndexError
  end.

(** *** Dictionaries with text keys, in insertion order *)

Definition dict (V : Type) : Type := list (string * V).

Fixpoint dict_get {V : Type} (k : string) (d : dict V) : option V :=
  match d with
  | [] => None
  | (k', v) :: rest => if String.eqb k' k then Some v else dict_get k rest
  end.

(** [d[k] = v]: an existing key keeps its place, a new one goes last. *)
Fixpoint dict_set {V : Type} (k : string) (v : V) (d : dict V) : dict V :=
  match d with
  | [] => [(k, v)]
  | (k', v') :: rest =>
      if String.eqb k' k then (k', v) :: rest else (k', v') :: dict_set k v rest
  end.

Definition keys {V : Type} (d : dict V) : list string := map fst d.
Definition values {V : Type} (d : dict V) : list V := map snd d.

(** [d[k]] *)
Definition dict_item {V : Type} (d : dict V) (k : string) : result V :=
  match dict_get k d with
  | Some v => Ok v
  | None => Raise KeyError
  end.

(** [sum(xs)] over ints. *)
Definition sum (xs : list Z) : Z := fold_left Z.add xs 0.

End Py.

Import Py.

Declare Scope py_scope.
Delimit Scope py_scope with py.
Notation "x <- c ;; k" := (bind c (fun x => k))
  (at level 61, c at next level, right associativity) : py_scope.
Local Open Scope py_scope.

(** ** The workbook reader (openpyxl, [data_only=True]) *)

Module Openpyxl.

(** A worksheet is its grid of cell values, row 1 first and column 1
    first in each row; a cell the grid does not list is empty. *)
Definition worksheet : Type := list (list value).

(** A workbook is its sheets by title, in workbook order. *)
Definition workbook : Type := list (string * worksheet).

Definition sheetnames (wb : workbook) : list string := map fst wb.

(** [name in wb.sheetnames] *)
Definition has_sheet (name : string) (wb : workbook) : bool :=
  existsb (String.eqb name) (sheetnames wb).

(** [wb[name]] *)
Definition sheet (wb : workbook) (name : string) : result worksheet :=
  match find (fun entry => String.eqb (fst entry) name) wb with
  | Some entry => Ok (snd entry)
  | None => Raise KeyError
  end.

(** [ws.max_column]: the widest row, and 1 for an empty sheet. *)
Definition max_column (ws : worksheet) : nat :=
  fold_right Nat.max 1%nat (map (@List.length value) ws).

(** The values of row [r] (counted from 1), columns 1 to [max_column]. *)
Definition row_values (ws : worksheet) (r : nat) : list value :=
  map (fun c => nth c (nth (r - 1) ws []) VNone) (seq 0 (max_column ws)).

(** [ws.iter_rows(min_row=.., max_row=.., values_only=True)] *)
Definition iter_rows (ws : worksheet) (min_row max_row : nat) : list (list value) :=
  map (row_values ws) (seq min_row (max_row + 1 - min_row)).

End Openpyxl.

Import Openpyxl.

(** ** The ROM data document *)

Inductive num : Type :=
| NInt (n : Z)
| NFloat (x : float).

Record meta_t : Type := {
  lastUpdated : string;
  version : string;
  client : string;
  project : string;
  sourceFile : string
}.

Record phase : Type := {
  pointsLow : Z;
  pointsHigh : Z;
  features : Z
}.

Record staff : Type := {
  role : string;
  fte : num;
  costRate : num
}.

Record timeline_phase : Type := {
  tp_name : string;
  tp_weeks : string;
  tp_description : string
}.

Record milestone : Type := {
  ms_date : string;
  ms_event : string
}.

Record timeline_t : Type := {
  tl_phases : list timeline_phase;
  tl_milestones : list milestone
}.

Record target : Type := {
  metric : string;
  target_value : string
}.

Record use_case : Type := {
  uc_id : Z;
  uc_name : string;
  uc_type : string;
  uc_challenge : string;
  uc_solution : string;
  uc_targets : list target
}.

(** The ten top-level keys, in the order the script creates them. *)
Record rom_data : Type := {
  meta : meta_t;
  summary : dict num;
  team : list string;
  phases : dict phase;
  totals : dict Z;
  businessCase : dict num;
  valueProjections : dict num;
  timeline : timeline_t;
  useCases : list use_case;
  staffing : list staff
}.

(** ** What a run sees and what it does *)

(** What the machine answers: the command line, the file system, the
    workbook reader, the clock and the terminal.  [makedirs path] is
    [os.makedirs(path, exist_ok=True)], [open_write path] is
    [open(path, 'w')], [json_dump path data] is [json.dump(data, f,
    indent=2)] on that file up to its closing, and [stdout_has_check_mark]
    tells whether the terminal's encoding has the check mark U+2713 that
    two of the printed lines start with. *)
Record env : Type := {
  openpyxl_installed : bool;
  argv : list string;
  path_exists : string -> bool;
  glob : string -> list string;
  load_workbook : string -> result workbook;
  today : string;
  makedirs : string -> result unit;
  open_write : string -> result unit;
  json_dump : string -> rom_data -> result unit;
  stdout_has_check_mark : bool
}.

(** The lines the script prints, one constructor per [print] call. *)
Inductive message : Type :=
| MsgOpenpyxlRequired
| MsgReading (excel_path : string)
| MsgSaved (output_path : string)
| MsgNotFound
| MsgUsage
| MsgRule (leading_newline : bool)
| MsgComplete
| MsgSource (rom_path : string)
| MsgOutput (output_path : string)
| MsgLastUpdated (date : string)
| MsgKeyValues
| MsgInvestment (amount : num)
| MsgDuration (weeks : num)
| MsgYear1Value (amount : num)
| MsgPayback (months : num)
| MsgNextLoad.

(** What a run does to the outside: a line printed, the directories made,
    a file opened for writing (it exists and is empty from then on), the
    document written to it in full. *)
Inductive event : Type :=
| Print (m : message)
| Makedirs (path : string)
| OpenFile (path : string)
| WriteJson (path : string) (data : rom_data).

(** How a run ends: it returns, dies of an exception, or [sys.exit]s. *)
Inductive outcome (A : Type) : Type :=
| Done (a : A)
| Uncaught (e : exn)
| Exit (code : Z).
Arguments Done {A} a.
Arguments Uncaught {A} e.
Arguments Exit {A} code.

Definition io (A : Type) : Type := (list event * outcome A)%type.

Definition io_ret {A : Type} (a : A) : io A := ([], Done a).

Definition io_bind {A B : Type} (c : io A) (k : A -> io B) : io B :=
  match c with
  | (out, Done a) => let (out', o) := k a in ((out ++ out')%list, o)
  | (out, Uncaught e) => (out, Uncaught e)
  | (out, Exit code) => (out, Exit code)
  end.

Definition print (m : message) : io unit := ([Print m], Done tt).

(** A line that starts with the check mark: [UnicodeEncodeError] when the
    terminal cannot encode it, and then nothing of the line is printed. *)
Definition print_check_mark (has_mark : bool) (m : message) : io unit :=
  if has_mark then print m else ([], Uncaught UnicodeEncodeError).

(** A call into the file system: the event when it succeeds, its
    exception otherwise. *)
Definition attempt (r : result unit) (ev : event) : io unit :=
  match r with
  | Ok _ => ([ev], Done tt)
  | Raise x => ([], Uncaught x)
  end.

Definition sys_exit {A : Type} (code : Z) : io A := ([], Exit code).

Definition lift {A : Type} (r : result A) : io A :=
  match r with
  | Ok a => io_ret a
  | Raise e => ([], Uncaught e)
  end.

Declare Scope io_scope.
Delimit Scope io_scope with io.
Notation "x <- c ;; k" := (io_bind c (fun x => k))
  (at level 61, c at next level, right associativity) : io_scope.
Notation "c ;; k" := (io_bind c (fun _ => k))
  (at level 61, right associativity) : io_scope.

(** [os.path.basename] on POSIX: what follows the last slash. *)
Fixpoint basename (path : string) : string :=
  match path with
  | EmptyString => EmptyString
  | String c rest =>
      if contains "/" rest then basename rest
      else if Ascii.eqb c "/" then rest
      else path
  end.

(** The path up to and including its last slash. *)
Fixpoint path_head (path : string) : string :=
  match path with
  | EmptyString => EmptyString
  | String c rest =>
      if contains "/" rest then String c (path_head rest)
      else if Ascii.eqb c "/" then "/"
      else EmptyString
  end.

Fixpoint all_slashes (s : string) : bool :=
  match s with
  | EmptyString => true
  | String c rest => Ascii.eqb c "/" && all_slashes rest
  end.

(** [s.rstrip('/')] *)
Fixpoint rstrip_slashes (s : string) : string :=
  match s with
  | EmptyString => EmptyString
  | String c rest =>
      match rstrip_slashes rest with
      | EmptyString => if Ascii.eqb c "/" then EmptyString else String c EmptyString
      | kept => String c kept
      end
  end.

(** [os.path.dirname] on POSIX: the head without its trailing slashes,
    unless it is made of slashes only. *)
Definition dirname (path : string) : string :=
  let head := path_head path in
  if nonempty head && negb (all_slashes head) then rstrip_slashes head else head.

(** ** The script *)

Definition possible_paths : list string :=
  [ "../MAHLE_ROM_2026_Populated_v1.xlsx";
    "MAHLE_ROM_2026_Populated_v1.xlsx";
    "../MAHLE_ROM*.xlsx" ].

Definition find_rom_file (e : env) : option string :=
  match find (path_exists e) possible_paths with
  | Some path => Some path
  | None =>
      match glob e "../*ROM*.xlsx" with
      | first :: _ => Some first
      | [] => None
      end
  end.

(** *** Section "Drivers & Estimates" *)

Definition summary_defaults : dict num :=
  [ ("investmentLow", NInt 260000);
    ("investmentAvg", NInt 300000);
    ("investmentHigh", NInt 370000);
    ("weeksLow", NInt 10);
    ("weeksAvg", NInt 12);
    ("weeksHigh", NInt 14);
    ("sprintsLow", NInt 5);
    ("sprintsAvg", NInt 6);
    ("sprintsHigh", NInt 7);
    ("targetVelocity", NInt 60);
    ("blendedRate", NFloat (literal 10838 2)) ].

(** [float(row[5]) if row[5] else 60], the right-hand side inside [try]. *)
Definition velocity_of (row : list value) : result num :=
  c <- getitem row 5 ;;
  if truthy c then (x <- to_float c ;; Ok (NFloat x)) else Ok (NInt 60).

(** [row[0] and "velocity" in str(row[0]).lower()] *)
Definition is_velocity_cell (c : value) : bool :=
  truthy c && contains "velocity" (lower (str c)).

(** One turn of the loop over rows 1 to 20. *)
Definition velocity_step (summary : dict num) (row : list value) : result (dict num) :=
  c0 <- getitem row 0 ;;
  if is_velocity_cell c0 then
    match velocity_of row with
    | Ok v => Ok (dict_set "targetVelocity" v summary)
    | Raise _ => Ok summary
    end
  else Ok summary.

Definition extract_summary (wb : workbook) : result (dict num) :=
  if has_sheet "Drivers & Estimates" wb then
    ws <- sheet wb "Drivers & Estimates" ;;
    for_each velocity_step (iter_rows ws 1 20) summary_defaults
  else Ok [].

(** *** Section "Points" *)

(** [int(c) if c else 0] *)
Definition int_or_zero (c : value) : result Z :=
  if truthy c then int c else Ok 0.

(** [str(row[0]).replace(" ", "").replace("&", "")] *)
Definition phase_name (c : value) : string :=
  remove_char "&" (remove_char " " (str c)).

(** One turn of the loop over rows 2 to 10. *)
Definition points_step (acc : dict phase) (row : list value) : result (dict phase) :=
  c0 <- getitem row 0 ;;
  if truthy c0 then
    c1 <- getitem row 1 ;;
    if negb (is_none c1) then
      low <- int_or_zero c1 ;;
      c2 <- getitem row 2 ;;
      high <- int_or_zero c2 ;;
      c3 <- getitem row 3 ;;
      count <- int_or_zero c3 ;;
      Ok (dict_set (phase_name c0)
            {| pointsLow := low; pointsHigh := high; features := count |} acc)
    else Ok acc
  else Ok acc.

Definition extract_phases (wb : workbook) : result (dict phase) :=
  if has_sheet "Points" wb then
    ws <- sheet wb "Points" ;;
    found <- for_each points_step (iter_rows ws 2 10) [] ;;
    Ok (match found with [] => [] | _ => found end)
  else Ok [].

(** *** Section "Fees & costs" *)

(** [float(c) if c else 0] *)
Definition float_or_zero (c : value) : result num :=
  if truthy c then (x <- to_float c ;; Ok (NFloat x)) else Ok (NInt 0).

(** [role and role not in ["", "Add rows as necessary"]] *)
Definition is_role (role : string) : bool :=
  nonempty role
  && negb (existsb (String.eqb role) [""; "Add rows as necessary"]).

(** One turn of the loop over rows 10 to 25. *)
Definition staffing_step (acc : list staff) (row : list value) : result (list staff) :=
  c0 <- getitem row 0 ;;
  if truthy c0 then
    c1 <- getitem row 1 ;;
    if truthy c1 && negb (contains "total" (lower (str c0))) then
      let name := strip (str c0) in
      if is_role name then
        people <- float_or_zero c1 ;;
        c2 <- getitem row 2 ;;
        rate <- float_or_zero c2 ;;
        Ok (acc ++ [ {| role := name; fte := people; costRate := rate |} ])%list
      else Ok acc
    else Ok acc
  else Ok acc.

Definition extract_staffing (wb : workbook) : result (list staff) :=
  if has_sheet "Fees & costs" wb then
    ws <- sheet wb "Fees & costs" ;;
    found <- for_each staffing_step (iter_rows ws 10 25) [] ;;
    Ok (match found with [] => [] | _ => found end)
  else Ok [].

(** *** The hand-curated sections *)

Definition businessCase_content : dict num :=
  [ ("currentDSO", NInt 60);
    ("targetDSOReduction", NInt 10);
    ("receivables", NInt 70000000);
    ("dailySalesRate", NInt 1166667);
    ("workingCapitalFreed", NInt 11666670);
    ("costOfCapital", NFloat (literal 35 3));
    ("annualCapitalSavings", NInt 408333);
    ("vendorInquiryFTEs", NInt 15);
    ("deflectionRateTarget", NFloat (literal 65 2));
    ("apTimeSavingsTarget", NFloat (literal 25 2));
    ("invoiceCycleCurrentDays", NInt 5);
    ("invoiceCycleTargetDays", NInt 2);
    ("aiAccuracyTarget", NFloat (literal 80 2)) ].

Definition valueProjections_content : dict num :=
  [ ("workingCapitalValue", NInt 400000);
    ("apProductivityValue", NInt 180000);
    ("processAccelerationValue", NInt 70000);
    ("totalYear1Value", NInt 650000);
    ("totalYear2Value", NInt 850000);
    ("paybackMonths", NInt 5);
    ("threeYearROI", NFloat (literal 55 1)) ].

Definition timeline_content : timeline_t :=
  {| tl_phases :=
       [ {| tp_name := "Discovery & Setup"; tp_weeks := "1-2";
            tp_description := "Kickoff, data source identification, environment setup" |};
         {| tp_name := "AI Development"; tp_weeks := "3-5";
            tp_description := "SAP integration, AI model configuration, prompt engineering" |};
         {| tp_name := "UI & Testing"; tp_weeks := "6-8";
            tp_description := "Power Apps interface, workflow testing, UAT" |};
         {| tp_name := "Live Pilot"; tp_weeks := "9-12";
            tp_description := "Process 100+ invoices, measure results, prepare recommendations" |} ];
     tl_milestones :=
       [ {| ms_date := "February 2026"; ms_event := "Scope & budget alignment" |};
         {| ms_date := "End of February"; ms_event := "MSA terms complete" |};
         {| ms_date := "Early March"; ms_event := "SOW delivered" |};
         {| ms_date := "Mid-March"; ms_event := "Finalize agreements" |};
         {| ms_date := "April 6"; ms_event := "Project kick-off" |};
         {| ms_date := "Late June"; ms_event := "Pilot live" |} ] |}.

Definition useCases_content : list use_case :=
  [ {| uc_id := 1;
       uc_name := "AI Vendor Communication Bot";
       uc_type := "Quick Win";
       uc_challenge := "Vendor inquiries take 2-3 days via portal or 5-10 days via email";
       uc_solution := "AI-powered chatbot handling invoice status and payment queries in real-time";
       uc_targets :=
         [ {| metric := "Deflection rate"; target_value := "60-70%" |};
           {| metric := "Response time"; target_value := "< 5 minutes" |};
           {| metric := "AP time savings"; target_value := "20-30%" |} ] |};
    {| uc_id := 2;
       uc_name := "Order-to-Cash AI Automation";
       uc_type := "Strategic Win";
       uc_challenge := "$70M trapped in receivables, 60-day DSO due to ECN delays";
       uc_solution := "AI identifies ECNs, calculates pricing impact, generates invoice drafts";
       uc_targets :=
         [ {| metric := "Invoice cycle time"; target_value := "30-40% reduction" |};
           {| metric := "AI accuracy"; target_value := "80%+ vs manual" |};
           {| metric := "Working capital"; target_value := "Faster unlock" |} ] |} ].

(** *** Totals *)

(** The block under [if rom_data["phases"]:]; every entry the script
    stores has the three keys, so [p.get(key, 0)] reads the field. *)
Definition compute_totals (found : dict phase) : dict Z :=
  match found with
  | [] => []
  | _ =>
      let total_low := sum (map pointsLow (values found)) in
      let total_high := sum (map pointsHigh (values found)) in
      let total_features := sum (map features (values found)) in
      [ ("pointsLow", total_low);
        ("pointsHigh", total_high);
        ("totalFeatures", total_features) ]
  end.

(** *** extract_rom_data *)

(** The body of [extract_rom_data] once the workbook is open. *)
Definition build_rom_data (date excel_path : string) (wb : workbook) : result rom_data :=
  summary_found <- extract_summary wb ;;
  phases_found <- extract_phases wb ;;
  staffing_found <- extract_staffing wb ;;
  Ok {| meta := {| lastUpdated := date;
                   version := "1.0";
                   client := "MAHLE";
                   project := "AI Finance Transformation";
                   sourceFile := basename excel_path |};
        summary := summary_found;
        team := [];
        phases := phases_found;
        totals := compute_totals phases_found;
        businessCase := businessCase_content;
        valueProjections := valueProjections_content;
        timeline := timeline_content;
        useCases := useCases_content;
        staffing := staffing_found |}.

Definition extract_rom_data (e : env) (excel_path : string) : io rom_data :=
  (print (MsgReading excel_path) ;;
   wb <- lift (load_workbook e excel_path) ;;
   lift (build_rom_data (today e) excel_path wb))%io.

(** *** save_json and main *)

Definition save_json (e : env) (data : rom_data) (output_path : string) : io unit :=
  (attempt (makedirs e (dirname output_path)) (Makedirs (dirname output_path)) ;;
   attempt (open_write e output_path) (OpenFile output_path) ;;
   attempt (json_dump e output_path data) (WriteJson output_path data) ;;
   print_check_mark (stdout_has_check_mark e) (MsgSaved output_path))%io.

Definition output_path : string := "data/rom-data.json".

(** [sys.argv[1]] when given, else the search. *)
Definition rom_path_of (e : env) : option string :=
  match argv e with
  | _ :: given :: _ => Some given
  | _ => find_rom_file e
  end.

(** [not rom_path or not os.path.exists(rom_path)] *)
Definition not_found (e : env) (rom_path : option string) : bool :=
  match rom_path with
  | None => true
  | Some path => negb (nonempty path) || negb (path_exists e path)
  end.

Definition main (e : env) : io unit :=
  (let rom_path := rom_path_of e in
   if not_found e rom_path then
     print MsgNotFound ;;
     print MsgUsage ;;
     sys_exit 1
   else
     let path := match rom_path with Some p => p | None => "" end in
     data <- extract_rom_data e path ;;
     save_json e data output_path ;;
     print (MsgRule true) ;;
     print MsgComplete ;;
     print (MsgRule false) ;;
     print (MsgSource path) ;;
     print (MsgOutput output_path) ;;
     print (MsgLastUpdated (lastUpdated (meta data))) ;;
     print MsgKeyValues ;;
     investment <- lift (dict_item (summary data) "investmentAvg") ;;
     print (MsgInvestment investment) ;;
     weeks <- lift (dict_item (summary data) "weeksAvg") ;;
     print (MsgDuration weeks) ;;
     year1 <- lift (dict_item (valueProjections data) "totalYear1Value") ;;
     print (MsgYear1Value year1) ;;
     months <- lift (dict_item (valueProjections data) "paybackMonths") ;;
     print (MsgPayback months) ;;
     print_check_mark (stdout_has_check_mark e) MsgNextLoad)%io.

(** The module as run from the command line: the import guard, then
    [main]. *)
Definition script (e : env) : io unit :=
  (if openpyxl_installed e then main e
   else print MsgOpenpyxlRequired ;; sys_exit 1)%io.

(** A file was written during the run. *)
Definition wrote_file (out : list event) : bool :=
  existsb (fun ev => match ev with WriteJson _ _ => true | _ => false end) out.

(** ** Vocabulary of the properties *)

(** [extract_rom_data], called on the path of workbook [wb], returns the
    document [d]. *)
Definition returns (e : env) (excel_path : string) (wb : workbook) (d : rom_data) : Prop :=
  load_workbook e excel_path = Ok wb
  /\ snd (extract_rom_data e excel_path) = Done d.

(** Cell [i] of a row, counted from 0 as the script does. *)
Definition cell (row : list value) (i : nat) : value := nth i row VNone.

(** The sheet of that title, when the workbook has one. *)
Definition sheet_named (name : string) (wb : workbook) (ws : worksheet) : Prop :=
  has_sheet name wb = true /\ sheet wb name = Ok ws.

Definition no_recognized_sheet (wb : workbook) : Prop :=
  has_sheet "Drivers & Estimates" wb = false
  /\ has_sheet "Points" wb = false
  /\ has_sheet "Fees & costs" wb = false.

(** *** Target velocity *)

(** What one row of "Drivers & Estimates" does to [targetVelocity]: a
    new value, or nothing when the first cell does not match, the row has
    no sixth cell or the sixth cell does not convert. *)
Definition velocity_reading (row : list value) : option num :=
  if truthy (cell row 0) && contains "velocity" (lower (str (cell row 0))) then
    match nth_error row 5 with
    | Some c =>
        if truthy c then
          match to_float c with
          | Ok x => Some (NFloat x)
          | Raise _ => None
          end
        else Some (NInt 60)
    | None => None
    end
  else None.

(** The value [targetVelocity] has after the rows, starting from [v]: each
    row with a reading replaces it. *)
Definition last_reading (rows : list (list value)) (v : num) : num :=
  fold_left (fun current row =>
               match velocity_reading row with
               | Some v' => v'
               | None => current
               end) rows v.

(** The numeric value 0 in a cell. *)
Definition numeric_zero (c : value) : bool :=
  match c with
  | VInt 0 => true
  | VFloat (S754_zero _) _ => true
  | _ => false
  end.

(** The reading of the specification: the last row whose first cell
    mentions velocity decides, with its sixth cell as a float and 60 when
    that cell is empty or not a number. *)
Definition specified_velocity (rows : list (list value)) : num :=
  match find (fun row => contains "velocity" (lower (str (cell row 0)))) (rev rows) with
  | Some row =>
      match to_float (cell row 5) with
      | Ok x => NFloat x
      | Raise _ => NInt 60
      end
  | None => NInt 60
  end.

(** *** Staffing *)

(** The rows of "Fees & costs" the script keeps. *)
Definition staffing_row (row : list value) : bool :=
  truthy (cell row 0) && truthy (cell row 1)
  && negb (contains "total" (lower (str (cell row 0))))
  && nonempty (strip (str (cell row 0)))
  && negb (String.eqb (strip (str (cell row 0))) "Add rows as necessary").

(** The entry a kept row yields. *)
Definition staff_of_row (row : list value) (s : staff) : Prop :=
  role s = strip (str (cell row 0))
  /\ (exists x, to_float (cell row 1) = Ok x /\ fte s = NFloat x)
  /\ ((truthy (cell row 2) = true
       /\ exists x, to_float (cell row 2) = Ok x /\ costRate s = NFloat x)
      \/ (truthy (cell row 2) = false /\ costRate s = NInt 0)).

(** An empty cell: no value, or the empty text. *)
Definition is_empty (c : value) : bool :=
  match c with
  | VNone => true
  | VText EmptyString _ _ => true
  | _ => false
  end.

(** The reading of the specification: a row is kept when its first cell
    is not empty, does not mention a total and is not the placeholder. *)
Definition specified_staffing_row (row : list value) : bool :=
  negb (is_empty (cell row 0))
  && negb (contains "total" (lower (str (cell row 0))))
  && negb (String.eqb (str (cell row 0)) "Add rows as necessary").

(** The specified rows, in order, each with its role. *)
Definition specified_staffing (rows : list (list value)) (found : list staff) : Prop :=
  Forall2 (fun row s => role s = strip (str (cell row 0)))
          (filter specified_staffing_row rows) found.

(** *** Phases *)

(** The rows of "Points" the script keeps. *)
Definition points_row (row : list value) : bool :=
  truthy (cell row 0) && negb (is_none (cell row 1)).

(** A points cell read as an integer: 0 when empty or zero. *)
Definition points_of (c : value) (n : Z) : Prop :=
  (truthy c = true /\ int c = Ok n) \/ (truthy c = false /\ n = 0).

(** The entry a kept row yields. *)
Definition phase_of_row (row : list value) (p : phase) : Prop :=
  points_of (cell row 1) (pointsLow p)
  /\ points_of (cell row 2) (pointsHigh p)
  /\ points_of (cell row 3) (features p).

Definition row_name (row : list value) : string := phase_name (cell row 0).

(** The names of a list, each at its first occurrence. *)
Definition distinct (names : list string) : list string :=
  fold_left (fun seen k => if existsb (String.eqb k) seen then seen else seen ++ [k])%list
            names [].

(** The last row of that name. *)
Definition last_named (k : string) (rows : list (list value)) : option (list value) :=
  find (fun row => String.eqb (row_name row) k) (rev rows).

(** What the loop over "Points" has built from the rows it kept: one key
    per name, in order of first appearance, each with the entry of the
    last row of that name. *)
Definition phases_built (kept : list (list value)) (found : dict phase) : Prop :=
  NoDup (keys found)
  /\ keys found = distinct (map row_name kept)
  /\ forall k,
       match last_named k kept with
       | Some row => exists p, dict_get k found = Some p /\ phase_of_row row p
       | None => dict_get k found = None
       end.

(** The reading of the specification: every row with a name and a low
    value, both not null, has its entry under its name. *)
Definition specified_points_row (row : list value) : bool :=
  negb (is_none (cell row 0)) && negb (is_none (cell row 1)).

Definition specified_phases (rows : list (list value)) (found : dict phase) : Prop :=
  forall row, In row (filter specified_points_row rows) ->
    exists p, dict_get (row_name row) found = Some p /\ phase_of_row row p.

(** The specification's sentence on [targetVelocity], as a property of the
    script. *)
Definition velocity_as_specified : Prop :=
  forall e path wb ws d,
    returns e path wb d ->
    sheet_named "Drivers & Estimates" wb ws ->
    dict_get "targetVelocity" (summary d)
    = Some (specified_velocity (iter_rows ws 1 20)).

(** The specification's sentence on [staffing], as a property of the
    script. *)
Definition staffing_as_specified : Prop :=
  forall e path wb ws d,
    returns e path wb d ->
    sheet_named "Fees & costs" wb ws ->
    specified_staffing (iter_rows ws 10 25) (staffing d).

(** The specification's sentence on [phases], as a property of the
    script. *)
Definition phases_as_specified : Prop :=
  forall e path wb ws d,
    returns e path wb d ->
    sheet_named "Points" wb ws ->
    specified_phases (iter_rows ws 2 10) (phases d).

(** The sentence on a velocity cell holding zero, read of the returned
    document. *)
Definition zero_cell_as_specified : Prop :=
  forall e path wb ws d r c,
    returns e path wb d ->
    sheet_named "Drivers & Estimates" wb ws ->
    (1 <= r <= 20)%nat ->
    is_velocity_cell (cell (row_values ws r) 0) = true ->
    nth_error (row_values ws r) 5 = Some c ->
    numeric_zero c = true ->
    dict_get "targetVelocity" (summary d) = Some (NInt 60).

(** ** Sample workbooks and runs *)

(** A text cell that is not a number. *)
Definition text (s : string) : value := VText s None None.

(** A run of [update_rom_data.py rom.xlsx] where [rom.xlsx] holds [wb],
    on a machine that accepts the write and prints the check mark. *)
Definition run_on (wb : workbook) : env :=
  {| openpyxl_installed := true;
     argv := ["update_rom_data.py"; "rom.xlsx"];
     path_exists := String.eqb "rom.xlsx";
     glob := fun _ => [];
     load_workbook := fun path =>
       if String.eqb path "rom.xlsx" then Ok wb else Raise LoadError;
     today := "2026-11-04";
     makedirs := fun _ => Ok tt;
     open_write := fun _ => Ok tt;
     json_dump := fun _ _ => Ok tt;
     stdout_has_check_mark := true |}.

(** A workbook with none of the three sheets. *)
Definition unrecognized_workbook : workbook := [("Sheet1", [[text "hello"]])].

(** The two phases of the specification's example, under a header row. *)
Definition points_sheet : worksheet :=
  [ [text "Phase"; text "Low"; text "High"; text "Features"];
    [text "Phase One"; VInt 10; VInt 20; VInt 3];
    [text "Phase & Two"; VInt 5; VInt 8; VInt 2] ].

(** Rows 10 to 13 of a fees sheet. *)
Definition fees_sheet : worksheet :=
  (repeat [] 9
   ++ [ [text "Total Staff"; VInt 10; VInt 100];
        [text "Add rows as necessary"; VInt 0; VInt 0];
        [text "Analyst"; VInt 2; VFloat (literal 855 1) "85.5"];
        [text "Architect"; VFloat (literal 5 1) "0.5"; VNone] ])%list.

Definition drivers_sheet : worksheet :=
  [ [text "Driver"; VNone; VNone; VNone; VNone; text "Value"];
    [text "Target Velocity"; VNone; VNone; VNone; VNone; VInt 75] ].

Definition sample_workbook : workbook :=
  [ ("Drivers & Estimates", drivers_sheet);
    ("Points", points_sheet);
    ("Fees & costs", fees_sheet) ].

(** A velocity row whose sixth cell holds the number 0. *)
Definition zero_velocity_workbook : workbook :=
  [ ("Drivers & Estimates",
     [ [text "Driver"; VNone; VNone; VNone; VNone; text "Value"];
       [text "Target Velocity"; VNone; VNone; VNone; VNone; VInt 0] ]) ].

(** Two velocity rows: 75, then a note that is not a number. *)
Definition two_velocity_workbook : workbook :=
  [ ("Drivers & Estimates",
     [ [text "Target Velocity"; VNone; VNone; VNone; VNone; VInt 75];
       [text "Velocity (stretch)"; VNone; VNone; VNone; VNone; text "n/a"] ]) ].

(** A fees sheet whose row 11 names a role without a head count. *)
Definition vacant_role_sheet : worksheet :=
  (repeat [] 9
   ++ [ [text "Analyst"; VInt 2; VFloat (literal 855 1) "85.5"];
        [text "Contractor"; VNone; VInt 120] ])%list.

Definition vacant_role_workbook : workbook := [("Fees & costs", vacant_role_sheet)].

(** Phases named by their number, from 0. *)
Definition numbered_phases_sheet : worksheet :=
  [ [text "Phase"; text "Low"; text "High"; text "Features"];
    [VInt 0; VInt 4; VInt 6; VInt 1];
    [VInt 1; VInt 10; VInt 20; VInt 3] ].

Definition numbered_phases_workbook : workbook := [("Points", numbered_phases_sheet)].

(** Two rows whose names differ by a space only. *)
Definition repeated_phase_sheet : worksheet :=
  [ [text "Phase"; text "Low"; text "High"; text "Features"];
    [text "Phase One"; VInt 10; VInt 20; VInt 3];
    [text "Phase Two"; VInt 5; VInt 8; VInt 2];
    [text "PhaseOne"; VInt 1; VNone; VFloat (literal 25 1) "2.5"] ].

Definition repeated_phase_workbook : workbook := [("Points", repeated_phase_sheet)].

(** A points sheet whose low value is still a note. *)
Definition undecided_points_workbook : workbook :=
  [ ("Drivers & Estimates", drivers_sheet);
    ("Points",
     [ [text "Phase"; text "Low"; text "High"; text "Features"];
       [text "Phase One"; text "TBD"; VInt 20; VInt 3] ]) ].

(** A fees sheet whose cost rate is a note. *)
Definition undecided_fees_workbook : workbook :=
  [ ("Drivers & Estimates", drivers_sheet);
    ("Fees & costs",
     (repeat [] 9 ++ [ [text "Analyst"; VInt 2; text "n/a"] ])%list) ].

(** A workbook with points and fees but no "Drivers & Estimates". *)
Definition no_drivers_workbook : workbook :=
  [ ("Points", points_sheet); ("Fees & costs", fees_sheet) ].

(** A velocity row holding 0, then a velocity row holding 75. *)
Definition zero_then_value_sheet : worksheet :=
  [ [text "Velocity floor"; VNone; VNone; VNone; VNone; VInt 0];
    [text "Target Velocity"; VNone; VNone; VNone; VNone; VInt 75] ].

Definition zero_then_value_workbook : workbook :=
  [("Drivers & Estimates", zero_then_value_sheet)].

(** A velocity row holding 75, then a velocity row holding 0. *)
Definition value_then_zero_sheet : worksheet :=
  [ [text "Target Velocity"; VNone; VNone; VNone; VNone; VInt 75];
    [text "Velocity floor"; VNone; VNone; VNone; VNone; VInt 0] ].

Definition value_then_zero_workbook : workbook :=
  [("Drivers & Estimates", value_then_zero_sheet)].

(** ** Vocabulary of the further properties *)

(** The run has a workbook path, and [main] finds a file there. *)
Definition located (e : env) (path : string) : Prop :=
  rom_path_of e = Some path /\ not_found e (Some path) = false.

(** The same run with another command line. *)
Definition with_argv (e : env) (args : list string) : env :=
  {| openpyxl_installed := openpyxl_installed e;
     argv := args;
     path_exists := path_exists e;
     glob := glob e;
     load_workbook := load_workbook e;
     today := today e;
     makedirs := makedirs e;
     open_write := open_write e;
     json_dump := json_dump e;
     stdout_has_check_mark := stdout_has_check_mark e |}.

(** The file system accepts the three steps that put document [d] into
    [data/rom-data.json]. *)
Definition file_written (e : env) (d : rom_data) : Prop :=
  makedirs e "data" = Ok tt
  /\ open_write e "data/rom-data.json" = Ok tt
  /\ json_dump e "data/rom-data.json" d = Ok tt.

(** The files a run wrote, in order. *)
Definition writes (out : list event) : list (string * rom_data) :=
  flat_map (fun ev => match ev with
                      | WriteJson path data => [(path, data)]
                      | _ => []
                      end) out.

(** What a run prints and writes from the reading line to the "Key
    Values" line. *)
Definition saved_lines (path : string) (d : rom_data) : list event :=
  [ Print (MsgReading path);
    Makedirs "data"; OpenFile "data/rom-data.json";
    WriteJson "data/rom-data.json" d;
    Print (MsgSaved "data/rom-data.json");
    Print (MsgRule true); Print MsgComplete; Print (MsgRule false);
    Print (MsgSource path); Print (MsgOutput "data/rom-data.json");
    Print (MsgLastUpdated (lastUpdated (meta d))); Print MsgKeyValues ].

(** The four key values and the closing line. *)
Definition key_value_lines : list event :=
  [ Print (MsgInvestment (NInt 300000)); Print (MsgDuration (NInt 12));
    Print (MsgYear1Value (NInt 650000)); Print (MsgPayback (NInt 5));
    Print MsgNextLoad ].

(** [int(c) if c else 0] gives a value. *)
Definition int_converts (c : value) : bool :=
  negb (truthy c)
  || match int c with
     | Ok _ => true
     | Raise _ => false
     end.

(** [float(c) if c else 0] gives a value. *)
Definition float_converts (c : value) : bool :=
  negb (truthy c)
  || match to_float c with
     | Ok _ => true
     | Raise _ => false
     end.

(** A row the "Points" loop gets through: its name is falsy, or it has a
    second cell that is null, or it has four cells and cells 2 to 4
    convert. *)
Definition points_row_safe (row : list value) : bool :=
  negb (truthy (cell row 0))
  || ((2 <=? List.length row)%nat
      && (is_none (cell row 1)
          || ((4 <=? List.length row)%nat
              && int_converts (cell row 1)
              && int_converts (cell row 2)
              && int_converts (cell row 3)))).

(** A row the "Fees & costs" loop gets through. *)
Definition staffing_row_safe (row : list value) : bool :=
  negb (truthy (cell row 0))
  || ((2 <=? List.length row)%nat
      && (negb (staffing_row row)
          || (float_converts (cell row 1)
              && (3 <=? List.length row)%nat
              && float_converts (cell row 2)))).

(** Every scanned row of the sheet of that title, if there is one, passes
    the test. *)
Definition rows_safe (name : string) (min_row max_row : nat)
    (safe : list value -> bool) (wb : workbook) : bool :=
  if has_sheet name wb then
    match sheet wb name with
    | Ok ws => forallb safe (iter_rows ws min_row max_row)
    | Raise _ => false
    end
  else true.

Definition points_safe : workbook -> bool := rows_safe "Points" 2 10 points_row_safe.
Definition fees_safe : workbook -> bool := rows_safe "Fees & costs" 10 25 staffing_row_safe.

(** A points sheet of three columns. *)
Definition narrow_points_sheet : worksheet :=
  [ [text "Phase"; text "Low"; text "High"];
    [text "Phase One"; VInt 10; VInt 20] ].

(** Candidate files: only the second fixed location exists. *)
Definition search_env (wb : workbook) : env :=
  {| openpyxl_installed := true;
     argv := ["update_rom_data.py"];
     path_exists := String.eqb "MAHLE_ROM_2026_Populated_v1.xlsx";
     glob := fun _ => ["../OLD_ROM.xlsx"];
     load_workbook := fun _ => Ok wb;
     today := "2026-11-04";
     makedirs := fun _ => Ok tt;
     open_write := fun _ => Ok tt;
     json_dump := fun _ _ => Ok tt;
     stdout_has_check_mark := true |}.

(** The same run where [data] exists as a plain file: [os.makedirs]
    raises. *)
Definition full_disk (wb : workbook) : env :=
  {| openpyxl_installed := true;
     argv := ["update_rom_data.py"; "rom.xlsx"];
     path_exists := String.eqb "rom.xlsx";
     glob := fun _ => [];
     load_workbook := fun _ => Ok wb;
     today := "2026-11-04";
     makedirs := fun _ => Raise OSError;
     open_write := fun _ => Ok tt;
     json_dump := fun _ _ => Ok tt;
     stdout_has_check_mark := true |}.

(** The same run on a terminal whose encoding lacks the check mark. *)
Definition plain_terminal (wb : workbook) : env :=
  {| openpyxl_installed := true;
     argv := ["update_rom_data.py"; "rom.xlsx"];
     path_exists := String.eqb "rom.xlsx";
     glob := fun _ => [];
     load_workbook := fun _ => Ok wb;
     today := "2026-11-04";
     makedirs := fun _ => Ok tt;
     open_write := fun _ => Ok tt;
     json_dump := fun _ _ => Ok tt;
     stdout_has_check_mark := false |}.

(** The document extraction returns on the sample workbook, on
    2026-11-04 and from [rom.xlsx]. *)
Definition sample_document : rom_data :=
  {| meta := {| lastUpdated := "2026-11-04";
                version := "1.0";
                client := "MAHLE";
                project := "AI Finance Transformation";
                sourceFile := "rom.xlsx" |};
     summary := dict_set "targetVelocity"
                  (NFloat (S754_finite false 5277655813324800 (-46)))
                  summary_defaults;
     team := [];
     phases := [ ("PhaseOne", {| pointsLow := 10; pointsHigh := 20; features := 3 |});
                 ("PhaseTwo", {| pointsLow := 5; pointsHigh := 8; features := 2 |}) ];
     totals := [("pointsLow", 15); ("pointsHigh", 28); ("totalFeatures", 5)];
     businessCase := businessCase_content;
     valueProjections := valueProjections_content;
     timeline := timeline_content;
     useCases := useCases_content;
     staffing :=
       [ {| role := "Analyst";
            fte := NFloat (S754_finite false 4503599627370496 (-51));
            costRate := NFloat (literal 855 1) |};
         {| role := "Architect";
            fte := NFloat (literal 5 1);
            costRate := NInt 0 |} ] |}.

(** A drivers sheet whose velocity row is written in capitals. *)
Definition capitals_sheet : worksheet :=
  [ [text "DRIVER"; VNone; VNone; VNone; VNone; text "VALUE"];
    [text "TEAM VELOCITY (pts)"; VNone; VNone; VNone; VNone; VInt 75] ].

Definition capitals_workbook : workbook := [("Drivers & Estimates", capitals_sheet)].

(** ** Basic facts *)

Lemma bind_ok {A B : Type} (c : result A) (k : A -> result B) (b : B) :
  bind c k = Ok b -> exists a, c = Ok a /\ k a = Ok b.
Proof.
  destruct c as [a | e]; simpl; intros H.
  - exists a. split; [reflexivity | exact H].
  - discriminate H.
Qed.

Lemma Ok_inj {A : Type} (a b : A) : Ok a = Ok b -> a = b.
Proof. intros H. injection H as H. exact H. Qed.

Lemma for_each_app {A S : Type} (step : S -> A -> result S) (xs ys : list A) (acc : S) :
  for_each step (xs ++ ys) acc = bind (for_each step xs acc) (for_each step ys).
Proof.
  revert acc. induction xs as [| x xs IH]; intros acc; simpl.
  - reflexivity.
  - destruct (step acc x) as [acc' | e]; simpl; [apply IH | reflexivity].
Qed.

Lemma max_column_pos (ws : worksheet) : (1 <= max_column ws)%nat.
Proof.
  unfold max_column. induction ws as [| row ws IH]; simpl; lia.
Qed.

Lemma row_values_length (ws : worksheet) (r : nat) :
  List.length (row_values ws r) = max_column ws.
Proof.
  unfold row_values. rewrite length_map, length_seq. reflexivity.
Qed.

Lemma iter_rows_width (ws : worksheet) (a b : nat) (row : list value) :
  In row (iter_rows ws a b) -> List.length row = max_column ws.
Proof.
  unfold iter_rows. rewrite in_map_iff. intros [r [<- _]].
  apply row_values_length.
Qed.

Lemma iter_rows_nonempty (ws : worksheet) (a b : nat) :
  Forall (fun row => row <> []) (iter_rows ws a b).
Proof.
  apply Forall_forall. intros row Hin Hnil.
  apply iter_rows_width in Hin. pose proof (max_column_pos ws).
  subst row. simpl in Hin. lia.
Qed.

(** Rows [a..c] are rows [a..b] followed by rows [b+1..c]. *)
Lemma iter_rows_split (ws : worksheet) (a b c : nat) :
  (a <= b + 1)%nat -> (b <= c)%nat ->
  iter_rows ws a c = (iter_rows ws a b ++ iter_rows ws (b + 1) c)%list.
Proof.
  intros Hab Hbc. unfold iter_rows. rewrite <- map_app. f_equal.
  replace (c + 1 - a)%nat with ((b + 1 - a) + (c + 1 - (b + 1)))%nat by lia.
  rewrite seq_app. do 2 f_equal. lia.
Qed.

Lemma getitem_cell (row : list value) (i : nat) (c : value) :
  getitem row i = Ok c -> cell row i = c.
Proof.
  unfold getitem, cell. destruct (nth_error row i) as [v |] eqn:E; intros H.
  - injection H as <-. apply nth_error_nth. exact E.
  - discriminate H.
Qed.

Lemma getitem_first (row : list value) :
  row <> [] -> getitem row 0 = Ok (cell row 0).
Proof.
  destruct row as [| c rest]; [congruence | reflexivity].
Qed.

(** What a returned document is made of. *)
Lemma returns_build (e : env) (path : string) (wb : workbook) (d : rom_data) :
  returns e path wb d -> build_rom_data (today e) path wb = Ok d.
Proof.
  unfold returns, extract_rom_data. intros [Hload Hrun].
  rewrite Hload in Hrun. simpl in Hrun.
  destruct (build_rom_data (today e) path wb) as [d' | x]; simpl in Hrun.
  - injection Hrun as <-. reflexivity.
  - discriminate Hrun.
Qed.

Lemma build_returns (e : env) (path : string) (wb : workbook) (d : rom_data) :
  load_workbook e path = Ok wb ->
  build_rom_data (today e) path wb = Ok d ->
  extract_rom_data e path = ([Print (MsgReading path)], Done d).
Proof.
  intros Hload Hbuild. unfold extract_rom_data.
  rewrite Hload. simpl. rewrite Hbuild. reflexivity.
Qed.

Lemma build_sections (date path : string) (wb : workbook) (d : rom_data) :
  build_rom_data date path wb = Ok d ->
  extract_summary wb = Ok (summary d)
  /\ extract_phases wb = Ok (phases d)
  /\ extract_staffing wb = Ok (staffing d)
  /\ totals d = compute_totals (phases d)
  /\ businessCase d = businessCase_content
  /\ valueProjections d = valueProjections_content
  /\ timeline d = timeline_content
  /\ useCases d = useCases_content
  /\ team d = [].
Proof.
  unfold build_rom_data. intros H.
  apply bind_ok in H as [s [Hs H]].
  apply bind_ok in H as [p [Hp H]].
  apply bind_ok in H as [st [Hst H]].
  injection H as <-. simpl. repeat split; assumption.
Qed.

(** A turn of a loop that left the accumulator alone. *)
Ltac row_skipped :=
  let H := fresh "H" in
  intros H; apply Ok_inj in H; left; split; congruence.

(** ** No recognized sheet *)

Lemma no_sheet_document (date path : string) (wb : workbook) :
  no_recognized_sheet wb ->
  exists d, build_rom_data date path wb = Ok d
            /\ summary d = [] /\ phases d = [] /\ totals d = [] /\ staffing d = [].
Proof.
  intros [Hd [Hp Hf]]. unfold build_rom_data, extract_summary, extract_phases,
    extract_staffing. rewrite Hd, Hp, Hf. simpl.
  eexists. split; [reflexivity |]. simpl. repeat split.
Qed.

(** C1.  On a workbook with none of the three sheets the returned document
    has empty [phases], [totals] and [staffing], and its [summary] is the
    empty dictionary: the defaults are assigned only under the test for
    the "Drivers & Estimates" sheet. *)
Theorem unrecognized_workbook_summary_empty :
  no_recognized_sheet unrecognized_workbook
  /\ exists d,
       extract_rom_data (run_on unrecognized_workbook) "rom.xlsx"
       = ([Print (MsgReading "rom.xlsx")], Done d)
       /\ phases d = [] /\ totals d = [] /\ staffing d = []
       /\ summary d = []
       /\ summary d <> summary_defaults.
Proof.
  split; [repeat split |].
  destruct (no_sheet_document "2026-11-04" "rom.xlsx" unrecognized_workbook)
    as [d [Hd [Hs [Hp [Ht Hst]]]]]; [repeat split |].
  exists d. split.
  - apply build_returns with (wb := unrecognized_workbook); [reflexivity | exact Hd].
  - rewrite Hs, Hp, Ht, Hst. repeat split. discriminate.
Qed.

(** ** Totals *)

Lemma sum_fold_right (xs : list Z) : sum xs = fold_right Z.add 0 xs.
Proof.
  unfold sum. apply fold_symmetric; intros; lia.
Qed.

(** C6.  In every returned document [totals] is a function of the final
    [phases] alone: empty when [phases] is empty, and otherwise the three
    sums of [pointsLow], [pointsHigh] and [features] over the entries,
    under the keys [pointsLow], [pointsHigh] and [totalFeatures]. *)
Theorem totals_from_phases (e : env) (path : string) (wb : workbook) (d : rom_data) :
  returns e path wb d ->
  (phases d = [] -> totals d = [])
  /\ (phases d <> [] ->
      totals d =
      [ ("pointsLow", fold_right Z.add 0 (map pointsLow (values (phases d))));
        ("pointsHigh", fold_right Z.add 0 (map pointsHigh (values (phases d))));
        ("totalFeatures", fold_right Z.add 0 (map features (values (phases d)))) ])
  /\ (totals d = [] <-> phases d = []).
Proof.
  intros Hret. apply returns_build in Hret. apply build_sections in Hret.
  destruct Hret as [_ [_ [_ [Ht _]]]]. rewrite Ht.
  destruct (phases d) as [| entry rest] eqn:E.
  - simpl. repeat split; congruence.
  - unfold compute_totals. rewrite !sum_fold_right.
    repeat split; try congruence; try discriminate.
Qed.

Lemma totals_from_phases_witness :
  exists d,
    returns (run_on sample_workbook) "rom.xlsx" sample_workbook d
    /\ keys (phases d) = ["PhaseOne"; "PhaseTwo"]
    /\ totals d = [("pointsLow", 15); ("pointsHigh", 28); ("totalFeatures", 5)].
Proof.
  eexists. split; [split; reflexivity |]. split; [reflexivity |].
  refine (proj1 (proj2 (totals_from_phases (run_on sample_workbook) "rom.xlsx"
                          sample_workbook _ _)) _).
  - split; reflexivity.
  - discriminate.
Defined.

(** ** The hand-curated sections *)

(** C7.  In every returned document [businessCase], [valueProjections],
    [timeline] and [useCases] are the fixed content, spelled out here value
    by value, whatever the workbook holds. *)
Theorem static_sections (e : env) (path : string) (wb : workbook) (d : rom_data) :
  returns e path wb d ->
  businessCase d =
    [ ("currentDSO", NInt 60);
      ("targetDSOReduction", NInt 10);
      ("receivables", NInt 70000000);
      ("dailySalesRate", NInt 1166667);
      ("workingCapitalFreed", NInt 11666670);
      ("costOfCapital", NFloat (literal 35 3));
      ("annualCapitalSavings", NInt 408333);
      ("vendorInquiryFTEs", NInt 15);
      ("deflectionRateTarget", NFloat (literal 65 2));
      ("apTimeSavingsTarget", NFloat (literal 25 2));
      ("invoiceCycleCurrentDays", NInt 5);
      ("invoiceCycleTargetDays", NInt 2);
      ("aiAccuracyTarget", NFloat (literal 80 2)) ]
  /\ valueProjections d =
     [ ("workingCapitalValue", NInt 400000);
       ("apProductivityValue", NInt 180000);
       ("processAccelerationValue", NInt 70000);
       ("totalYear1Value", NInt 650000);
       ("totalYear2Value", NInt 850000);
       ("paybackMonths", NInt 5);
       ("threeYearROI", NFloat (literal 55 1)) ]
  /\ timeline d =
     {| tl_phases :=
          [ {| tp_name := "Discovery & Setup"; tp_weeks := "1-2";
               tp_description :=
                 "Kickoff, data source identification, environment setup" |};
            {| tp_name := "AI Development"; tp_weeks := "3-5";
               tp_description :=
                 "SAP integration, AI model configuration, prompt engineering" |};
            {| tp_name := "UI & Testing"; tp_weeks := "6-8";
               tp_description := "Power Apps interface, workflow testing, UAT" |};
            {| tp_name := "Live Pilot"; tp_weeks := "9-12";
               tp_description :=
                 "Process 100+ invoices, measure results, prepare recommendations" |} ];
        tl_milestones :=
          [ {| ms_date := "February 2026"; ms_event := "Scope & budget alignment" |};
            {| ms_date := "End of February"; ms_event := "MSA terms complete" |};
            {| ms_date := "Early March"; ms_event := "SOW delivered" |};
            {| ms_date := "Mid-March"; ms_event := "Finalize agreements" |};
            {| ms_date := "April 6"; ms_event := "Project kick-off" |};
            {| ms_date := "Late June"; ms_event := "Pilot live" |} ] |}
  /\ useCases d =
     [ {| uc_id := 1;
          uc_name := "AI Vendor Communication Bot";
          uc_type := "Quick Win";
          uc_challenge :=
            "Vendor inquiries take 2-3 days via portal or 5-10 days via email";
          uc_solution :=
            "AI-powered chatbot handling invoice status and payment queries in real-time";
          uc_targets :=
            [ {| metric := "Deflection rate"; target_value := "60-70%" |};
              {| metric := "Response time"; target_value := "< 5 minutes" |};
              {| metric := "AP time savings"; target_value := "20-30%" |} ] |};
       {| uc_id := 2;
          uc_name := "Order-to-Cash AI Automation";
          uc_type := "Strategic Win";
          uc_challenge :=
            "$70M trapped in receivables, 60-day DSO due to ECN delays";
          uc_solution :=
            "AI identifies ECNs, calculates pricing impact, generates invoice drafts";
          uc_targets :=
            [ {| metric := "Invoice cycle time"; target_value := "30-40% reduction" |};
              {| metric := "AI accuracy"; target_value := "80%+ vs manual" |};
              {| metric := "Working capital"; target_value := "Faster unlock" |} ] |} ].
Proof.
  intros Hret. apply returns_build in Hret. apply build_sections in Hret.
  destruct Hret as [_ [_ [_ [_ [Hb [Hv [Ht [Hu _]]]]]]]].
  rewrite Hb, Hv, Ht, Hu. repeat split.
Qed.

Lemma static_sections_witness :
  exists d,
    returns (run_on sample_workbook) "rom.xlsx" sample_workbook d
    /\ dict_get "receivables" (businessCase d) = Some (NInt 70000000)
    /\ dict_get "totalYear1Value" (valueProjections d) = Some (NInt 650000)
    /\ map tp_weeks (tl_phases (timeline d)) = ["1-2"; "3-5"; "6-8"; "9-12"]
    /\ List.length (tl_milestones (timeline d)) = 6%nat
    /\ map uc_name (useCases d)
       = ["AI Vendor Communication Bot"; "Order-to-Cash AI Automation"].
Proof.
  eexists. split; [split; reflexivity |].
  destruct (static_sections (run_on sample_workbook) "rom.xlsx" sample_workbook _
              (conj eq_refl eq_refl)) as [Hb [Hv [Ht Hu]]].
  rewrite Hb, Hv, Ht, Hu. repeat split.
Defined.

(** ** A path that does not exist *)

Lemma missing_path_lines (e : env) (prog given : string) (rest : list string) :
  argv e = prog :: given :: rest ->
  path_exists e given = false ->
  main e = ([Print MsgNotFound; Print MsgUsage], Exit 1)
  /\ wrote_file [Print MsgNotFound; Print MsgUsage] = false.
Proof.
  intros Hargv Hmissing. split; [| reflexivity].
  unfold main, rom_path_of, not_found. rewrite Hargv, Hmissing.
  rewrite orb_true_r. reflexivity.
Qed.

(** C9.  When the command line gives a path and no file is there, [main]
    prints the not-found line and the usage line, exits with code 1 and
    writes no file. *)
Theorem missing_path_exits (e : env) (prog given : string) (rest : list string) :
  argv e = prog :: given :: rest ->
  path_exists e given = false ->
  main e = ([Print MsgNotFound; Print MsgUsage], Exit 1)
  /\ wrote_file (fst (main e)) = false
  /\ 1 <> 0.
Proof.
  intros Hargv Hmissing.
  destruct (missing_path_lines e prog given rest Hargv Hmissing) as [Hmain Hout].
  rewrite Hmain. repeat split. discriminate.
Qed.

Lemma missing_path_exits_witness :
  main {| openpyxl_installed := true;
          argv := ["update_rom_data.py"; "missing.xlsx"];
          path_exists := String.eqb "rom.xlsx";
          glob := fun _ => ["../MAHLE_ROM.xlsx"];
          load_workbook := fun _ => Ok sample_workbook;
          today := "2026-11-04";
          makedirs := fun _ => Ok tt;
          open_write := fun _ => Ok tt;
          json_dump := fun _ _ => Ok tt;
          stdout_has_check_mark := true |}
  = ([Print MsgNotFound; Print MsgUsage], Exit 1).
Proof.
  refine (proj1 (missing_path_exits _ "update_rom_data.py" "missing.xlsx" [] _ _));
    reflexivity.
Defined.

(** Counting the import guard as well, such a run exits with code 1 and
    writes nothing. *)
Lemma script_missing_path (e : env) (prog given : string) (rest : list string) :
  argv e = prog :: given :: rest ->
  path_exists e given = false ->
  snd (script e) = Exit 1 /\ wrote_file (fst (script e)) = false.
Proof.
  intros Hargv Hmissing. unfold script.
  destruct (openpyxl_installed e).
  - destruct (missing_path_lines e prog given rest Hargv Hmissing) as [Hmain Hout].
    rewrite Hmain. split; reflexivity.
  - split; reflexivity.
Qed.

(** ** Dictionaries *)

Lemma dict_get_set {V : Type} (k : string) (v : V) (d : dict V) :
  dict_get k (dict_set k v d) = Some v.
Proof.
  induction d as [| [k' v'] rest IH]; simpl.
  - rewrite String.eqb_refl. reflexivity.
  - destruct (String.eqb k' k) eqn:E; simpl; rewrite E; [reflexivity | exact IH].
Qed.

Lemma dict_set_twice {V : Type} (k : string) (v v' : V) (d : dict V) :
  dict_set k v (dict_set k v' d) = dict_set k v d.
Proof.
  induction d as [| [k' w] rest IH]; simpl.
  - rewrite String.eqb_refl. reflexivity.
  - destruct (String.eqb k' k) eqn:E; simpl; rewrite E; [reflexivity |].
    rewrite IH. reflexivity.
Qed.

(** ** Target velocity *)

(** A turn of the loop never raises: it applies the row's reading. *)
Lemma velocity_step_reading (current : dict num) (row : list value) :
  row <> [] ->
  velocity_step current row
  = Ok (match velocity_reading row with
        | Some v => dict_set "targetVelocity" v current
        | None => current
        end).
Proof.
  intros Hrow. unfold velocity_step, velocity_reading, is_velocity_cell.
  rewrite (getitem_first row Hrow). cbn [bind].
  destruct (truthy (cell row 0) && contains "velocity" (lower (str (cell row 0))));
    [| reflexivity].
  unfold velocity_of, getitem.
  destruct (nth_error row 5) as [c |]; cbn [bind]; [| reflexivity].
  destruct (truthy c); [| reflexivity].
  destruct (to_float c); reflexivity.
Qed.

Lemma last_reading_cons (row : list value) (rows : list (list value)) (v : num) :
  last_reading (row :: rows) v
  = last_reading rows (match velocity_reading row with
                       | Some v' => v'
                       | None => v
                       end).
Proof. reflexivity. Qed.

Lemma velocity_loop (rows : list (list value)) (v : num) :
  Forall (fun row => row <> []) rows ->
  for_each velocity_step rows (dict_set "targetVelocity" v summary_defaults)
  = Ok (dict_set "targetVelocity" (last_reading rows v) summary_defaults).
Proof.
  intros Hrows. revert v.
  induction Hrows as [| row rows Hrow _ IH]; intros v.
  - reflexivity.
  - cbn [for_each]. rewrite (velocity_step_reading _ row Hrow). cbn [bind].
    rewrite last_reading_cons.
    destruct (velocity_reading row) as [v' |].
    + rewrite dict_set_twice. apply IH.
    + apply IH.
Qed.

Lemma last_reading_app (xs ys : list (list value)) (v : num) :
  last_reading (xs ++ ys) v = last_reading ys (last_reading xs v).
Proof.
  unfold last_reading. apply fold_left_app.
Qed.

Lemma last_reading_silent (rows : list (list value)) (v : num) :
  Forall (fun row => velocity_reading row = None) rows ->
  last_reading rows v = v.
Proof.
  intros H. revert v. induction H as [| row rows Hrow _ IH]; intros v.
  - reflexivity.
  - rewrite last_reading_cons, Hrow. apply IH.
Qed.

(** The summary block never raises, and leaves the defaults with the last
    reading as [targetVelocity]. *)
Lemma extract_summary_drivers (wb : workbook) (ws : worksheet) :
  sheet_named "Drivers & Estimates" wb ws ->
  extract_summary wb
  = Ok (dict_set "targetVelocity" (last_reading (iter_rows ws 1 20) (NInt 60))
          summary_defaults).
Proof.
  intros [Hhas Hsheet]. unfold extract_summary. rewrite Hhas, Hsheet. simpl.
  apply (velocity_loop (iter_rows ws 1 20) (NInt 60)).
  apply iter_rows_nonempty.
Qed.

(** C4, amended.  With a "Drivers & Estimates" sheet, [targetVelocity] of
    the returned document is decided by the last row among rows 1 to 20
    that has a reading: a row whose first cell is truthy and mentions
    velocity, and whose sixth cell is falsy (the value is then 60) or
    converts to a float (the value is then that float).  Rows without a
    sixth cell or whose sixth cell does not convert leave the value as it
    was; without any reading the summary keeps its defaults.  The other
    ten summary values are the defaults in all cases. *)
Theorem target_velocity_last_reading
    (e : env) (path : string) (wb : workbook) (ws : worksheet) (d : rom_data) :
  returns e path wb d ->
  sheet_named "Drivers & Estimates" wb ws ->
  (forall before row after v,
      iter_rows ws 1 20 = (before ++ row :: after)%list ->
      velocity_reading row = Some v ->
      Forall (fun later => velocity_reading later = None) after ->
      summary d = dict_set "targetVelocity" v summary_defaults)
  /\ (Forall (fun row => velocity_reading row = None) (iter_rows ws 1 20) ->
      summary d = summary_defaults).
Proof.
  intros Hret Hsheet.
  apply returns_build in Hret. apply build_sections in Hret.
  destruct Hret as [Hsum _].
  rewrite (extract_summary_drivers wb ws Hsheet) in Hsum.
  apply Ok_inj in Hsum. rewrite <- Hsum. split.
  - intros before row after v Hrows Hrow Hafter.
    rewrite Hrows, last_reading_app, last_reading_cons, Hrow.
    rewrite last_reading_silent by exact Hafter. reflexivity.
  - intros Hsilent. rewrite last_reading_silent by exact Hsilent. reflexivity.
Qed.

Lemma target_velocity_last_reading_witness :
  exists d,
    returns (run_on sample_workbook) "rom.xlsx" sample_workbook d
    /\ summary d
       = dict_set "targetVelocity"
           (NFloat (S754_finite false 5277655813324800 (-46))) summary_defaults.
Proof.
  eexists. split; [split; reflexivity |].
  refine (proj1 (target_velocity_last_reading (run_on sample_workbook) "rom.xlsx"
                   sample_workbook drivers_sheet _ _ _)
            [row_values drivers_sheet 1] (row_values drivers_sheet 2)
            (iter_rows drivers_sheet 3 20) _ _ _ _).
  - split; reflexivity.
  - split; reflexivity.
  - reflexivity.
  - reflexivity.
  - repeat constructor.
Defined.

(** C4 as stated fails twice.  A sixth cell holding 0 gives 60, not that
    cell as a float; and after a row that set 75, a later velocity row
    whose cell is not a number leaves 75 in place, not 60. *)
Lemma target_velocity_counterexample :
  (exists d,
      returns (run_on zero_velocity_workbook) "rom.xlsx" zero_velocity_workbook d
      /\ dict_get "targetVelocity" (summary d) = Some (NInt 60)
      /\ specified_velocity
           (iter_rows [ [text "Driver"; VNone; VNone; VNone; VNone; text "Value"];
                        [text "Target Velocity"; VNone; VNone; VNone; VNone; VInt 0] ]
                      1 20)
         = NFloat (S754_zero false))
  /\ (exists d,
      returns (run_on two_velocity_workbook) "rom.xlsx" two_velocity_workbook d
      /\ dict_get "targetVelocity" (summary d)
         = Some (NFloat (S754_finite false 5277655813324800 (-46)))
      /\ specified_velocity
           (iter_rows [ [text "Target Velocity"; VNone; VNone; VNone; VNone; VInt 75];
                        [text "Velocity (stretch)"; VNone; VNone; VNone; VNone; text "n/a"] ]
                      1 20)
         = NInt 60)
  /\ ~ velocity_as_specified.
Proof.
  split; [| split].
  - eexists. split; [split; reflexivity |]. split; reflexivity.
  - eexists. split; [split; reflexivity |]. split; reflexivity.
  - intros Hspec.
    assert (Hrun : exists d,
               returns (run_on two_velocity_workbook) "rom.xlsx" two_velocity_workbook d
               /\ dict_get "targetVelocity" (summary d)
                  = Some (NFloat (S754_finite false 5277655813324800 (-46)))).
    { eexists. split; [split; reflexivity | reflexivity]. }
    destruct Hrun as [d [Hret Hcode]].
    pose proof (Hspec _ _ _ _ d Hret (conj eq_refl eq_refl)) as Hclaim.
    rewrite Hcode in Hclaim. discriminate Hclaim.
Qed.

(** ** A velocity cell holding zero *)

Lemma zero_is_falsy (c : value) : numeric_zero c = true -> truthy c = false.
Proof.
  destruct c as [| b | n | x t | s a b | z t]; simpl; try discriminate.
  - destruct n; try discriminate. reflexivity.
  - destruct x; try discriminate. reflexivity.
Qed.

Lemma iter_rows_last (ws : worksheet) (i : nat) :
  (1 <= i)%nat ->
  iter_rows ws 1 i = (iter_rows ws 1 (i - 1) ++ [row_values ws i])%list.
Proof.
  intros Hi. rewrite (iter_rows_split ws 1 (i - 1) i) by lia.
  f_equal. unfold iter_rows.
  replace (i - 1 + 1)%nat with i by lia.
  replace (i + 1 - i)%nat with 1%nat by lia. reflexivity.
Qed.

(** The turn of the loop for a velocity row whose sixth cell holds zero. *)
Lemma zero_velocity_step (current : dict num) (row : list value) (c : value) :
  is_velocity_cell (cell row 0) = true ->
  nth_error row 5 = Some c ->
  numeric_zero c = true ->
  velocity_step current row = Ok (dict_set "targetVelocity" (NInt 60) current).
Proof.
  intros Hfirst Hsixth Hzero.
  assert (Hrow : row <> []) by (intros ->; discriminate Hsixth).
  unfold velocity_step. rewrite (getitem_first row Hrow). cbn [bind].
  rewrite Hfirst. unfold velocity_of, getitem. rewrite Hsixth. cbn [bind].
  rewrite (zero_is_falsy c Hzero). reflexivity.
Qed.

(** C10, amended.  With a "Drivers & Estimates" sheet, take any row among
    rows 1 to 20 whose first cell is truthy and mentions velocity and whose
    sixth cell holds the number 0.  The turn of the loop for that row sets
    [targetVelocity] to the integer 60, not 0, whatever it was before; and
    when no later row among rows 1 to 20 has a reading, 60 is the value in
    every returned document. *)
Theorem zero_velocity_cell_sets_60 (wb : workbook) (ws : worksheet) (i : nat) (c : value) :
  sheet_named "Drivers & Estimates" wb ws ->
  (1 <= i <= 20)%nat ->
  is_velocity_cell (cell (row_values ws i) 0) = true ->
  nth_error (row_values ws i) 5 = Some c ->
  numeric_zero c = true ->
  (forall current,
      velocity_step current (row_values ws i)
      = Ok (dict_set "targetVelocity" (NInt 60) current))
  /\ (Forall (fun later => velocity_reading later = None) (iter_rows ws (i + 1) 20) ->
      forall e path d,
        returns e path wb d ->
        summary d = dict_set "targetVelocity" (NInt 60) summary_defaults).
Proof.
  intros Hsheet Hi Hfirst Hsixth Hzero. split.
  - intros current. apply (zero_velocity_step current _ c Hfirst Hsixth Hzero).
  - intros Hlater e path d Hret.
    assert (Hreading : velocity_reading (row_values ws i) = Some (NInt 60)).
    { unfold velocity_reading. unfold is_velocity_cell in Hfirst.
      rewrite Hfirst, Hsixth, (zero_is_falsy c Hzero). reflexivity. }
    apply returns_build in Hret. apply build_sections in Hret.
    destruct Hret as [Hsum _].
    rewrite (extract_summary_drivers wb ws Hsheet) in Hsum.
    apply Ok_inj in Hsum. rewrite <- Hsum.
    rewrite (iter_rows_split ws 1 i 20) by lia.
    rewrite (iter_rows_last ws i) by lia.
    rewrite !last_reading_app, last_reading_cons, Hreading.
    rewrite last_reading_silent by exact Hlater. reflexivity.
Qed.

Lemma zero_velocity_cell_sets_60_witness :
  (exists d,
      returns (run_on value_then_zero_workbook) "rom.xlsx" value_then_zero_workbook d
      /\ dict_get "targetVelocity" (summary d) = Some (NInt 60))
  /\ velocity_step
       (dict_set "targetVelocity" (NFloat (S754_finite false 5277655813324800 (-46)))
          summary_defaults)
       [text "Velocity floor"; VNone; VNone; VNone; VNone; VInt 0]
     = Ok summary_defaults.
Proof.
  destruct (zero_velocity_cell_sets_60 value_then_zero_workbook value_then_zero_sheet
              2 (VInt 0)) as [Hturn Hfinal].
  - split; reflexivity.
  - lia.
  - reflexivity.
  - reflexivity.
  - reflexivity.
  - split.
    + eexists. split; [split; reflexivity |].
      rewrite (Hfinal ltac:(repeat constructor)
                 (run_on value_then_zero_workbook) "rom.xlsx" _
                 (conj eq_refl eq_refl)).
      reflexivity.
    + exact (Hturn _).
Defined.

(** C10 as stated fails: after a velocity row holding 0, a later velocity
    row holding 75 decides, and the document holds 75.0, not 60. *)
Lemma zero_velocity_counterexample :
  (exists d,
      returns (run_on zero_then_value_workbook) "rom.xlsx" zero_then_value_workbook d
      /\ is_velocity_cell (cell (row_values zero_then_value_sheet 1) 0) = true
      /\ nth_error (row_values zero_then_value_sheet 1) 5 = Some (VInt 0)
      /\ dict_get "targetVelocity" (summary d)
         = Some (NFloat (S754_finite false 5277655813324800 (-46))))
  /\ ~ zero_cell_as_specified.
Proof.
  split.
  - eexists. split; [split; reflexivity |]. repeat split.
  - intros Hspec.
    assert (Hrun : exists d,
               returns (run_on zero_then_value_workbook) "rom.xlsx"
                 zero_then_value_workbook d
               /\ dict_get "targetVelocity" (summary d)
                  = Some (NFloat (S754_finite false 5277655813324800 (-46)))).
    { eexists. split; [split; reflexivity | reflexivity]. }
    destruct Hrun as [d [Hret Hcode]].
    pose proof (Hspec _ _ _ zero_then_value_sheet d 1%nat (VInt 0) Hret
                  (conj eq_refl eq_refl) ltac:(lia) eq_refl eq_refl eq_refl) as Hclaim.
    rewrite Hcode in Hclaim. discriminate Hclaim.
Qed.

(** ** Staffing *)

Lemma is_role_spec (name : string) :
  is_role name = nonempty name && negb (String.eqb name "Add rows as necessary").
Proof.
  unfold is_role. destruct name as [| c rest]; [reflexivity |].
  cbn [nonempty existsb andb]. rewrite orb_false_r.
  change (String.eqb (String c rest) "") with false. reflexivity.
Qed.

Lemma float_or_zero_spec (c : value) (n : num) :
  float_or_zero c = Ok n ->
  (truthy c = true /\ exists x, to_float c = Ok x /\ n = NFloat x)
  \/ (truthy c = false /\ n = NInt 0).
Proof.
  unfold float_or_zero. destruct (truthy c).
  - intros H. apply bind_ok in H as [x [Hx H]]. apply Ok_inj in H.
    left. split; [reflexivity |]. exists x. split; [exact Hx | congruence].
  - intros H. apply Ok_inj in H. right. split; congruence.
Qed.

(** One turn of the loop either skips the row or appends its entry. *)
Lemma staffing_step_spec (acc acc' : list staff) (row : list value) :
  row <> [] ->
  staffing_step acc row = Ok acc' ->
  (staffing_row row = false /\ acc' = acc)
  \/ (staffing_row row = true
      /\ exists s, staff_of_row row s /\ acc' = (acc ++ [s])%list).
Proof.
  intros Hrow. unfold staffing_step, staffing_row.
  rewrite (getitem_first row Hrow). cbn [bind].
  destruct (truthy (cell row 0)); cbn [andb];
    [| row_skipped].
  destruct (getitem row 1) as [c1 | x] eqn:E1; cbn [bind]; [| discriminate].
  rewrite (getitem_cell row 1 c1 E1).
  destruct (truthy c1) eqn:T1; cbn [andb];
    [| row_skipped].
  destruct (contains "total" (lower (str (cell row 0)))); cbn [negb andb];
    [row_skipped |].
  rewrite is_role_spec.
  destruct (nonempty (strip (str (cell row 0)))
            && negb (String.eqb (strip (str (cell row 0))) "Add rows as necessary"));
    [| row_skipped].
  intros H.
  apply bind_ok in H as [people [Hpeople H]].
  apply bind_ok in H as [c2 [E2 H]].
  apply bind_ok in H as [rate [Hrate H]].
  apply Ok_inj in H.
  right. split; [reflexivity |].
  exists {| role := strip (str (cell row 0)); fte := people; costRate := rate |}.
  split; [| congruence].
  unfold staff_of_row. cbn [role fte costRate].
  rewrite (getitem_cell row 1 c1 E1), (getitem_cell row 2 c2 E2).
  split; [reflexivity |]. split.
  - apply float_or_zero_spec in Hpeople as [[_ Hx] | [Hfalse _]]; [exact Hx | congruence].
  - apply float_or_zero_spec in Hrate as [[Ht [x [Hx Hn]]] | [Ht Hn]].
    + left. split; [exact Ht |]. exists x. split; assumption.
    + right. split; assumption.
Qed.

Lemma staffing_loop (rows : list (list value)) (acc found : list staff) :
  Forall (fun row => row <> []) rows ->
  for_each staffing_step rows acc = Ok found ->
  exists added,
    found = (acc ++ added)%list
    /\ Forall2 staff_of_row (filter staffing_row rows) added.
Proof.
  intros Hrows. revert acc.
  induction Hrows as [| row rows Hrow _ IH]; intros acc Hloop.
  - apply Ok_inj in Hloop. exists []. rewrite app_nil_r. split; [congruence | constructor].
  - cbn [for_each] in Hloop. apply bind_ok in Hloop as [acc' [Hstep Hrest]].
    destruct (IH acc' Hrest) as [added [Hfound Hadded]].
    cbn [filter].
    destruct (staffing_step_spec acc acc' row Hrow Hstep)
      as [[Hskip Hacc] | [Hkeep [s [Hs Hacc]]]].
    + rewrite Hskip. exists added. split; [congruence | exact Hadded].
    + rewrite Hkeep. exists (s :: added). split.
      * rewrite Hfound, Hacc, <- app_assoc. reflexivity.
      * constructor; assumption.
Qed.

(** C3, amended.  With a "Fees & costs" sheet, [staffing] of the returned
    document lists, in row order, exactly the rows among rows 10 to 25
    whose first and second cells are both truthy, whose first cell does
    not mention a total in any letter case, and whose first cell, once
    stripped, is neither empty nor the placeholder.  Each gives its
    stripped first cell as [role], its second cell as a float as [fte], and
    as [costRate] its third cell as a float, or the integer 0 when that
    cell is falsy. *)
Theorem staffing_rows_kept
    (e : env) (path : string) (wb : workbook) (ws : worksheet) (d : rom_data) :
  returns e path wb d ->
  sheet_named "Fees & costs" wb ws ->
  Forall2 staff_of_row (filter staffing_row (iter_rows ws 10 25)) (staffing d).
Proof.
  intros Hret [Hhas Hsheet].
  apply returns_build in Hret. apply build_sections in Hret.
  destruct Hret as [_ [_ [Hstaff _]]].
  unfold extract_staffing in Hstaff. rewrite Hhas, Hsheet in Hstaff.
  cbn [bind] in Hstaff.
  apply bind_ok in Hstaff as [found [Hloop Hfound]].
  apply staffing_loop in Hloop as [added [Hacc Hadded]];
    [| apply iter_rows_nonempty].
  simpl in Hacc. subst found.
  assert (Hd : staffing d = added).
  { destruct added; apply Ok_inj in Hfound; congruence. }
  rewrite Hd. exact Hadded.
Qed.

Lemma staffing_rows_kept_witness :
  exists d,
    returns (run_on sample_workbook) "rom.xlsx" sample_workbook d
    /\ map role (staffing d) = ["Analyst"; "Architect"]
    /\ Forall2 staff_of_row
         [ [text "Analyst"; VInt 2; VFloat (literal 855 1) "85.5"];
           [text "Architect"; VFloat (literal 5 1) "0.5"; VNone] ]
         (staffing d).
Proof.
  eexists. split; [split; reflexivity |]. split; [reflexivity |].
  refine (staffing_rows_kept (run_on sample_workbook) "rom.xlsx" sample_workbook
            fees_sheet _ _ _); split; reflexivity.
Defined.

(** C3 as stated fails: a row naming a role with an empty head-count cell
    is not a total, not the placeholder and not empty, yet the script
    skips it. *)
Lemma staffing_counterexample :
  (exists d,
      returns (run_on vacant_role_workbook) "rom.xlsx" vacant_role_workbook d
      /\ map role (staffing d) = ["Analyst"]
      /\ map (fun row => strip (str (cell row 0)))
           (filter specified_staffing_row (iter_rows vacant_role_sheet 10 25))
         = ["Analyst"; "Contractor"])
  /\ ~ staffing_as_specified.
Proof.
  split.
  - eexists. split; [split; reflexivity |]. split; reflexivity.
  - intros Hspec.
    assert (Hrun : exists d,
               returns (run_on vacant_role_workbook) "rom.xlsx" vacant_role_workbook d
               /\ List.length (staffing d) = 1%nat).
    { eexists. split; [split; reflexivity | reflexivity]. }
    destruct Hrun as [d [Hret Hcode]].
    pose proof (Hspec _ _ _ vacant_role_sheet d Hret (conj eq_refl eq_refl)) as Hclaim.
    apply Forall2_length in Hclaim. rewrite Hcode in Hclaim.
    vm_compute in Hclaim. discriminate Hclaim.
Qed.

(** ** Phases *)

Lemma existsb_eqb_In (k : string) (names : list string) :
  existsb (String.eqb k) names = true <-> In k names.
Proof.
  rewrite existsb_exists. split.
  - intros [k' [Hin Heq]]. apply String.eqb_eq in Heq. congruence.
  - intros Hin. exists k. split; [exact Hin | apply String.eqb_refl].
Qed.

Lemma keys_dict_set {V : Type} (k : string) (v : V) (d : dict V) :
  keys (dict_set k v d)
  = if existsb (String.eqb k) (keys d) then keys d else (keys d ++ [k])%list.
Proof.
  induction d as [| [k' v'] rest IH]; [reflexivity |].
  cbn [dict_set keys map fst existsb]. rewrite (String.eqb_sym k k').
  destruct (String.eqb k' k) eqn:E; cbn [orb map fst]; [reflexivity |].
  fold (keys rest). fold (keys (dict_set k v rest)). rewrite IH.
  destruct (existsb (String.eqb k) (keys rest)); reflexivity.
Qed.

Lemma dict_get_set_other {V : Type} (k k' : string) (v : V) (d : dict V) :
  String.eqb k' k = false -> dict_get k (dict_set k' v d) = dict_get k d.
Proof.
  intros Hdiff. induction d as [| [k0 v0] rest IH]; simpl.
  - rewrite Hdiff. reflexivity.
  - destruct (String.eqb k0 k') eqn:E; simpl.
    + apply String.eqb_eq in E. subst k0. rewrite Hdiff. reflexivity.
    + destruct (String.eqb k0 k); [reflexivity | exact IH].
Qed.

Lemma distinct_snoc (names : list string) (k : string) :
  distinct (names ++ [k])
  = if existsb (String.eqb k) (distinct names)
    then distinct names
    else (distinct names ++ [k])%list.
Proof.
  unfold distinct. rewrite fold_left_app. reflexivity.
Qed.

Lemma int_or_zero_spec (c : value) (n : Z) :
  int_or_zero c = Ok n -> points_of c n.
Proof.
  unfold int_or_zero, points_of. destruct (truthy c); intros H.
  - left. split; [reflexivity | exact H].
  - apply Ok_inj in H. right. split; congruence.
Qed.

(** One turn of the loop either skips the row or stores its entry under
    its name. *)
Lemma points_step_spec (acc acc' : dict phase) (row : list value) :
  row <> [] ->
  points_step acc row = Ok acc' ->
  (points_row row = false /\ acc' = acc)
  \/ (points_row row = true
      /\ exists p, phase_of_row row p /\ acc' = dict_set (row_name row) p acc).
Proof.
  intros Hrow. unfold points_step, points_row, row_name.
  rewrite (getitem_first row Hrow). cbn [bind].
  destruct (truthy (cell row 0)); cbn [andb];
    [| row_skipped].
  destruct (getitem row 1) as [c1 | x] eqn:E1; cbn [bind]; [| discriminate].
  rewrite (getitem_cell row 1 c1 E1).
  destruct (negb (is_none c1));
    [| row_skipped].
  intros H.
  apply bind_ok in H as [low [Hlow H]].
  apply bind_ok in H as [c2 [E2 H]].
  apply bind_ok in H as [high [Hhigh H]].
  apply bind_ok in H as [c3 [E3 H]].
  apply bind_ok in H as [count [Hcount H]].
  apply Ok_inj in H.
  right. split; [reflexivity |].
  exists {| pointsLow := low; pointsHigh := high; features := count |}.
  split; [| congruence].
  unfold phase_of_row. cbn [pointsLow pointsHigh features].
  rewrite (getitem_cell row 1 c1 E1), (getitem_cell row 2 c2 E2),
    (getitem_cell row 3 c3 E3).
  repeat split; apply int_or_zero_spec; assumption.
Qed.

Lemma phases_built_nil : phases_built [] [].
Proof.
  split; [constructor | split; [reflexivity | intros k; reflexivity]].
Qed.

Lemma phases_built_snoc (kept : list (list value)) (found : dict phase)
    (row : list value) (p : phase) :
  phases_built kept found ->
  phase_of_row row p ->
  phases_built (kept ++ [row]) (dict_set (row_name row) p found).
Proof.
  intros [Hnodup [Hkeys Hget]] Hp. unfold phases_built.
  rewrite keys_dict_set, map_app. cbn [map]. rewrite distinct_snoc, <- Hkeys.
  repeat split.
  - destruct (existsb (String.eqb (row_name row)) (keys found)) eqn:E; [exact Hnodup |].
    apply NoDup_app; [exact Hnodup | repeat constructor; intros [] |].
    intros k Hin [<- | []]. apply existsb_eqb_In in Hin. congruence.
  - intros k. unfold last_named. rewrite rev_app_distr. cbn [rev app find].
    destruct (String.eqb (row_name row) k) eqn:E.
    + apply String.eqb_eq in E. subst k. exists p. split; [apply dict_get_set | exact Hp].
    + rewrite (dict_get_set_other k (row_name row) p found E). apply Hget.
Qed.

Lemma points_loop (rows : list (list value)) (found : dict phase) :
  Forall (fun row => row <> []) rows ->
  for_each points_step rows [] = Ok found ->
  phases_built (filter points_row rows) found.
Proof.
  revert found. induction rows as [| row rows IH] using rev_ind; intros found Hrows Hloop.
  - apply Ok_inj in Hloop. subst found. apply phases_built_nil.
  - apply Forall_app in Hrows as [Hrows Hrow]. apply Forall_inv in Hrow.
    rewrite for_each_app in Hloop. apply bind_ok in Hloop as [acc [Hacc Hstep]].
    cbn [for_each] in Hstep. apply bind_ok in Hstep as [acc' [Hstep Hend]].
    apply Ok_inj in Hend. subst acc'.
    specialize (IH acc Hrows Hacc). rewrite filter_app. cbn [filter].
    destruct (points_step_spec acc found row Hrow Hstep)
      as [[Hskip ->] | [Hkeep [p [Hp ->]]]].
    + rewrite Hskip, app_nil_r. exact IH.
    + rewrite Hkeep. apply phases_built_snoc; assumption.
Qed.

(** C5, amended.  With a "Points" sheet, take the rows among rows 2 to 10
    whose first cell is truthy and whose second cell is not null.  In the
    returned document the keys of [phases] are unique and are the names of
    those rows with spaces and ampersands removed, in order of first
    appearance; each key maps to the entry of the last such row of that
    name, with [pointsLow], [pointsHigh] and [features] the integers of
    cells 2 to 4 (0 for a falsy cell).  Without the sheet, or without such
    a row, [phases] is empty. *)
Theorem phases_rows_kept (e : env) (path : string) (wb : workbook) (d : rom_data) :
  returns e path wb d ->
  (forall ws,
      sheet_named "Points" wb ws ->
      phases_built (filter points_row (iter_rows ws 2 10)) (phases d)
      /\ (filter points_row (iter_rows ws 2 10) = [] -> phases d = []))
  /\ (has_sheet "Points" wb = false -> phases d = []).
Proof.
  intros Hret. apply returns_build in Hret. apply build_sections in Hret.
  destruct Hret as [_ [Hphases _]]. unfold extract_phases in Hphases. split.
  - intros ws [Hhas Hsheet]. rewrite Hhas, Hsheet in Hphases.
    cbn [bind] in Hphases. apply bind_ok in Hphases as [found [Hloop Hfound]].
    assert (Hd : phases d = found).
    { destruct found; apply Ok_inj in Hfound; congruence. }
    rewrite Hd. apply points_loop in Hloop; [| apply iter_rows_nonempty].
    split; [exact Hloop |].
    intros Hnone. rewrite Hnone in Hloop. destruct Hloop as [_ [Hkeys _]].
    destruct found; [reflexivity | discriminate Hkeys].
  - intros Hnone. rewrite Hnone in Hphases. apply Ok_inj in Hphases. congruence.
Qed.

Lemma phases_rows_kept_witness :
  exists d,
    returns (run_on repeated_phase_workbook) "rom.xlsx" repeated_phase_workbook d
    /\ phases d
       = [ ("PhaseOne", {| pointsLow := 1; pointsHigh := 0; features := 2 |});
           ("PhaseTwo", {| pointsLow := 5; pointsHigh := 8; features := 2 |}) ]
    /\ phases_built
         [ [text "Phase One"; VInt 10; VInt 20; VInt 3];
           [text "Phase Two"; VInt 5; VInt 8; VInt 2];
           [text "PhaseOne"; VInt 1; VNone; VFloat (literal 25 1) "2.5"] ]
         (phases d).
Proof.
  eexists. split; [split; reflexivity |]. split; [reflexivity |].
  refine (proj1 (proj1 (phases_rows_kept (run_on repeated_phase_workbook) "rom.xlsx"
                          repeated_phase_workbook _ _)
                   repeated_phase_sheet _));
    split; reflexivity.
Defined.

(** C5 as stated fails twice.  A row named by the number 0, with a low
    value, is not null yet gets no entry; and of two rows whose names
    differ by a space only the later one keeps its values. *)
Lemma phases_counterexample :
  (exists d,
      returns (run_on numbered_phases_workbook) "rom.xlsx" numbered_phases_workbook d
      /\ phases d = [("1", {| pointsLow := 10; pointsHigh := 20; features := 3 |})]
      /\ In [VInt 0; VInt 4; VInt 6; VInt 1]
           (filter specified_points_row (iter_rows numbered_phases_sheet 2 10)))
  /\ (exists d,
      returns (run_on repeated_phase_workbook) "rom.xlsx" repeated_phase_workbook d
      /\ dict_get "PhaseOne" (phases d)
         = Some {| pointsLow := 1; pointsHigh := 0; features := 2 |}
      /\ In [text "Phase One"; VInt 10; VInt 20; VInt 3]
           (filter specified_points_row (iter_rows repeated_phase_sheet 2 10)))
  /\ ~ phases_as_specified.
Proof.
  split; [| split].
  - eexists. split; [split; reflexivity |]. split; [reflexivity |]. left. reflexivity.
  - eexists. split; [split; reflexivity |]. split; [reflexivity |]. left. reflexivity.
  - intros Hspec.
    assert (Hrun : exists d,
               returns (run_on numbered_phases_workbook) "rom.xlsx"
                 numbered_phases_workbook d
               /\ dict_get "0" (phases d) = None).
    { eexists. split; [split; reflexivity | reflexivity]. }
    destruct Hrun as [d [Hret Hcode]].
    destruct (Hspec _ _ _ numbered_phases_sheet d Hret (conj eq_refl eq_refl)
                [VInt 0; VInt 4; VInt 6; VInt 1]) as [p [Hp _]].
    + left. reflexivity.
    + change (row_name [VInt 0; VInt 4; VInt 6; VInt 1]) with "0" in Hp.
      rewrite Hcode in Hp. discriminate Hp.
Qed.

(** ** Cells that do not convert *)

(** C2.  A text that is not a number in a numeric cell of "Points" or of
    "Fees & costs" is not replaced by 0: [int] or [float] raises
    [ValueError], nothing catches it, and the run dies before writing.
    Only the "Drivers & Estimates" loop has a handler, and there the same
    kind of cell is passed over. *)
Theorem coercion_failure_escapes :
  extract_rom_data (run_on undecided_points_workbook) "rom.xlsx"
  = ([Print (MsgReading "rom.xlsx")], Uncaught ValueError)
  /\ extract_rom_data (run_on undecided_fees_workbook) "rom.xlsx"
     = ([Print (MsgReading "rom.xlsx")], Uncaught ValueError)
  /\ main (run_on undecided_points_workbook)
     = ([Print (MsgReading "rom.xlsx")], Uncaught ValueError)
  /\ exists d,
       extract_rom_data (run_on two_velocity_workbook) "rom.xlsx"
       = ([Print (MsgReading "rom.xlsx")], Done d).
Proof.
  repeat split. eexists. reflexivity.
Qed.

(** ** Runs of main *)

Lemma has_sheet_sheet (name : string) (wb : workbook) :
  has_sheet name wb = true -> exists ws, sheet wb name = Ok ws.
Proof.
  unfold has_sheet, sheetnames, sheet.
  induction wb as [| [title ws] rest IH]; cbn [map existsb find fst snd].
  - discriminate.
  - rewrite (String.eqb_sym name title).
    destruct (String.eqb title name); cbn [orb].
    + intros _. exists ws. reflexivity.
    + exact IH.
Qed.

Lemma main_found (e : env) (path : string) :
  rom_path_of e = Some path ->
  not_found e (Some path) = false ->
  main e
  = (data <- extract_rom_data e path ;;
     save_json e data output_path ;;
     print (MsgRule true) ;;
     print MsgComplete ;;
     print (MsgRule false) ;;
     print (MsgSource path) ;;
     print (MsgOutput output_path) ;;
     print (MsgLastUpdated (lastUpdated (meta data))) ;;
     print MsgKeyValues ;;
     investment <- lift (dict_item (summary data) "investmentAvg") ;;
     print (MsgInvestment investment) ;;
     weeks <- lift (dict_item (summary data) "weeksAvg") ;;
     print (MsgDuration weeks) ;;
     year1 <- lift (dict_item (valueProjections data) "totalYear1Value") ;;
     print (MsgYear1Value year1) ;;
     months <- lift (dict_item (valueProjections data) "paybackMonths") ;;
     print (MsgPayback months) ;;
     print_check_mark (stdout_has_check_mark e) MsgNextLoad)%io.
Proof.
  intros Hpath Hfound. unfold main. rewrite Hpath, Hfound. reflexivity.
Qed.

(** A run whose extraction raises writes nothing. *)
Lemma main_extraction_fails (e : env) (path : string) (x : exn) :
  rom_path_of e = Some path ->
  not_found e (Some path) = false ->
  snd (extract_rom_data e path) = Uncaught x ->
  main e = ([Print (MsgReading path)], Uncaught x).
Proof.
  intros Hpath Hfound Hraise. rewrite (main_found e path Hpath Hfound).
  unfold extract_rom_data in *.
  destruct (load_workbook e path) as [wb | x']; cbn in Hraise |- *.
  - destruct (build_rom_data (today e) path wb) as [d | x'']; cbn in Hraise |- *.
    + discriminate Hraise.
    + congruence.
  - congruence.
Qed.

Lemma unit_result_ok (r : result unit) : (exists x, r = Raise x) \/ r = Ok tt.
Proof.
  destruct r as [[] | x]; [right; reflexivity | left; exists x; reflexivity].
Qed.

(** [save_json] on a file system that accepts the write and a terminal
    that has the check mark. *)
Lemma save_json_done (e : env) (d : rom_data) :
  file_written e d ->
  stdout_has_check_mark e = true ->
  save_json e d output_path
  = ([ Makedirs "data"; OpenFile "data/rom-data.json";
       WriteJson "data/rom-data.json" d;
       Print (MsgSaved "data/rom-data.json") ], Done tt).
Proof.
  intros [Hdir [Hopen Hdump]] Hmark. unfold save_json, output_path.
  change (dirname "data/rom-data.json") with "data".
  rewrite Hdir, Hopen, Hdump, Hmark. reflexivity.
Qed.

(** With a "Drivers & Estimates" sheet, a run whose extraction returns and
    whose write is accepted writes the document once and ends normally. *)
Lemma main_with_drivers (e : env) (path : string) (wb : workbook) (d : rom_data) :
  rom_path_of e = Some path ->
  not_found e (Some path) = false ->
  returns e path wb d ->
  file_written e d ->
  stdout_has_check_mark e = true ->
  has_sheet "Drivers & Estimates" wb = true ->
  main e
    = ([ Print (MsgReading path);
         Makedirs "data"; OpenFile "data/rom-data.json";
         WriteJson "data/rom-data.json" d;
         Print (MsgSaved "data/rom-data.json");
         Print (MsgRule true); Print MsgComplete; Print (MsgRule false);
         Print (MsgSource path); Print (MsgOutput "data/rom-data.json");
         Print (MsgLastUpdated (today e)); Print MsgKeyValues;
         Print (MsgInvestment (NInt 300000)); Print (MsgDuration (NInt 12));
         Print (MsgYear1Value (NInt 650000)); Print (MsgPayback (NInt 5));
         Print MsgNextLoad ], Done tt).
Proof.
  intros Hpath Hfound Hret Hdisk Hmark Hhas.
  destruct (has_sheet_sheet _ _ Hhas) as [ws Hws].
  pose proof (returns_build e path wb d Hret) as Hbuild.
  pose proof (build_sections _ _ _ _ Hbuild) as [Hsum [_ [_ [_ [_ [Hval _]]]]]].
  rewrite (extract_summary_drivers wb ws (conj Hhas Hws)) in Hsum.
  apply Ok_inj in Hsum.
  assert (Hmeta : lastUpdated (meta d) = today e).
  { unfold build_rom_data in Hbuild.
    apply bind_ok in Hbuild as [s [_ Hbuild]].
    apply bind_ok in Hbuild as [p [_ Hbuild]].
    apply bind_ok in Hbuild as [st [_ Hbuild]].
    apply Ok_inj in Hbuild. subst d. reflexivity. }
  rewrite (main_found e path Hpath Hfound).
  rewrite (build_returns e path wb d (proj1 Hret) Hbuild).
  cbn [io_bind]. rewrite (save_json_done e d Hdisk Hmark).
  rewrite <- Hsum, Hval, Hmeta, Hmark. reflexivity.
Qed.

(** Without that sheet the same run writes the document and then dies of
    [KeyError] on [rom_data['summary']['investmentAvg']]. *)
Lemma main_without_drivers (e : env) (path : string) (wb : workbook) (d : rom_data) :
  rom_path_of e = Some path ->
  not_found e (Some path) = false ->
  returns e path wb d ->
  file_written e d ->
  stdout_has_check_mark e = true ->
  has_sheet "Drivers & Estimates" wb = false ->
  main e
  = ([ Print (MsgReading path);
       Makedirs "data"; OpenFile "data/rom-data.json";
       WriteJson "data/rom-data.json" d;
       Print (MsgSaved "data/rom-data.json");
       Print (MsgRule true); Print MsgComplete; Print (MsgRule false);
       Print (MsgSource path); Print (MsgOutput "data/rom-data.json");
       Print (MsgLastUpdated (lastUpdated (meta d))); Print MsgKeyValues ],
     Uncaught KeyError).
Proof.
  intros Hpath Hfound Hret Hdisk Hmark Hhas.
  pose proof (returns_build e path wb d Hret) as Hbuild.
  pose proof (build_sections _ _ _ _ Hbuild) as [Hsum _].
  unfold extract_summary in Hsum. rewrite Hhas in Hsum. apply Ok_inj in Hsum.
  rewrite (main_found e path Hpath Hfound).
  rewrite (build_returns e path wb d (proj1 Hret) Hbuild).
  cbn [io_bind]. rewrite (save_json_done e d Hdisk Hmark).
  rewrite <- Hsum. reflexivity.
Qed.

(** C8.  A workbook with points and fees but no "Drivers & Estimates"
    sheet: [main] writes [data/rom-data.json], with an empty [summary], and
    then ends with an uncaught [KeyError]. *)
Theorem run_writes_then_fails :
  exists out d,
    main (run_on no_drivers_workbook) = (out, Uncaught KeyError)
    /\ In (WriteJson "data/rom-data.json" d) out
    /\ wrote_file out = true
    /\ summary d = []
    /\ keys (phases d) = ["PhaseOne"; "PhaseTwo"].
Proof.
  eexists. eexists. split; [reflexivity |].
  split; [right; right; right; left; reflexivity |].
  repeat split.
Qed.

(** * Further properties of the script *)

(** ** find_rom_file *)

Lemma find_first {A : Type} (f : A -> bool) (l : list A) (x : A) :
  find f l = Some x <->
  exists before after,
    l = (before ++ x :: after)%list
    /\ f x = true
    /\ Forall (fun y => f y = false) before.
Proof.
  induction l as [| a l IH]; cbn [find].
  - split; [discriminate |]. intros [before [after [H _]]].
    destruct before; discriminate H.
  - destruct (f a) eqn:Ea; split.
    + intros H. injection H as <-. exists [], l. repeat split; [exact Ea | constructor].
    + intros [before [after [Hl [Hx Hbefore]]]].
      destruct before as [| b before]; cbn in Hl; injection Hl as -> ->.
      * reflexivity.
      * apply Forall_inv in Hbefore. congruence.
    + intros H. apply IH in H as [before [after [-> [Hx Hbefore]]]].
      exists (a :: before), after. repeat split; [exact Hx | constructor; assumption].
    + intros [before [after [Hl [Hx Hbefore]]]].
      destruct before as [| b before]; cbn in Hl; injection Hl as -> ->.
      * congruence.
      * apply IH. exists before, after. repeat split; [exact Hx |].
        apply Forall_inv_tail in Hbefore. exact Hbefore.
Qed.

Lemma find_nothing {A : Type} (f : A -> bool) (l : list A) :
  find f l = None <-> Forall (fun y => f y = false) l.
Proof.
  induction l as [| a l IH]; cbn [find].
  - split; [constructor | reflexivity].
  - destruct (f a) eqn:Ea; split.
    + discriminate.
    + intros H. apply Forall_inv in H. congruence.
    + intros H. constructor; [exact Ea | apply IH, H].
    + intros H. apply IH. apply Forall_inv_tail in H. exact H.
Qed.

(** X1.  [find_rom_file] returns the first of the three fixed locations
    that exists; when none exists it returns the first match of the
    pattern [../*ROM*.xlsx], without testing it; and it returns nothing
    exactly when no fixed location exists and the pattern matches
    nothing. *)
Theorem find_rom_file_first_existing (e : env) :
  (forall p,
      find_rom_file e = Some p <->
      (exists before after,
          possible_paths = (before ++ p :: after)%list
          /\ path_exists e p = true
          /\ Forall (fun q => path_exists e q = false) before)
      \/ (Forall (fun q => path_exists e q = false) possible_paths
          /\ hd_error (glob e "../*ROM*.xlsx") = Some p))
  /\ (find_rom_file e = None <->
      Forall (fun q => path_exists e q = false) possible_paths
      /\ glob e "../*ROM*.xlsx" = []).
Proof.
  unfold find_rom_file.
  destruct (find (path_exists e) possible_paths) as [found |] eqn:Efind.
  - pose proof (proj1 (find_first _ _ _) Efind) as Hfound. split.
    + intros p. split.
      * intros H. injection H as <-. left. exact Hfound.
      * intros [Hp | [Hnone _]].
        -- apply find_first in Hp. congruence.
        -- apply find_nothing in Hnone. congruence.
    + split; [discriminate |]. intros [Hnone _].
      apply find_nothing in Hnone. congruence.
  - pose proof (proj1 (find_nothing _ _) Efind) as Hnone. split.
    + intros p. split.
      * intros H. right. split; [exact Hnone |].
        destruct (glob e "../*ROM*.xlsx"); [discriminate | exact H].
      * intros [Hp | [_ Hp]].
        -- apply find_first in Hp. congruence.
        -- destruct (glob e "../*ROM*.xlsx"); [discriminate | exact Hp].
    + split.
      * intros H. split; [exact Hnone |].
        destruct (glob e "../*ROM*.xlsx"); [reflexivity | discriminate].
      * intros [_ ->]. reflexivity.
Qed.

(** ** main *)

Lemma main_not_found (e : env) :
  not_found e (rom_path_of e) = true ->
  main e = ([Print MsgNotFound; Print MsgUsage], Exit 1).
Proof.
  intros H. unfold main. rewrite H. reflexivity.
Qed.

(** X2.  Without a path on the command line [main] runs on what
    [find_rom_file] returns: it exits with the usage lines when the search
    finds nothing, and otherwise does what it does when that path is given
    as the argument. *)
Theorem main_without_argument (e : env) :
  (List.length (argv e) <= 1)%nat ->
  (find_rom_file e = None ->
   main e = ([Print MsgNotFound; Print MsgUsage], Exit 1))
  /\ (forall path,
         find_rom_file e = Some path ->
         main e = main (with_argv e ["update_rom_data.py"; path])).
Proof.
  intros Hargs.
  assert (Hpath : rom_path_of e = find_rom_file e).
  { unfold rom_path_of. destruct (argv e) as [| prog [| given rest]];
      [reflexivity | reflexivity | simpl in Hargs; lia]. }
  split.
  - intros Hnone. apply main_not_found. rewrite Hpath, Hnone. reflexivity.
  - intros path Hsome. unfold main.
    rewrite Hpath, Hsome.
    change (rom_path_of (with_argv e ["update_rom_data.py"; path])) with (Some path).
    reflexivity.
Qed.

Lemma main_without_argument_witness :
  find_rom_file (search_env sample_workbook) = Some "MAHLE_ROM_2026_Populated_v1.xlsx"
  /\ main (search_env sample_workbook)
     = main (with_argv (search_env sample_workbook)
               ["update_rom_data.py"; "MAHLE_ROM_2026_Populated_v1.xlsx"]).
Proof.
  split; [reflexivity |].
  refine (proj2 (main_without_argument (search_env sample_workbook) _) _ _).
  - simpl. lia.
  - reflexivity.
Defined.

Lemma extract_rom_data_cases (e : env) (path : string) :
  (exists x, extract_rom_data e path = ([Print (MsgReading path)], Uncaught x))
  \/ (exists wb d, returns e path wb d).
Proof.
  unfold returns, extract_rom_data.
  destruct (load_workbook e path) as [wb | x]; cbn.
  - destruct (build_rom_data (today e) path wb) as [d | x]; cbn.
    + right. exists wb, d. split; reflexivity.
    + left. exists x. reflexivity.
  - left. exists x. reflexivity.
Qed.

(** [save_json] either goes through, or stops at the saved line after the
    write, or stops before the document is in the file. *)
Lemma save_json_cases (e : env) (d : rom_data) :
  (file_written e d /\ stdout_has_check_mark e = true
   /\ save_json e d output_path
      = ([ Makedirs "data"; OpenFile "data/rom-data.json";
           WriteJson "data/rom-data.json" d;
           Print (MsgSaved "data/rom-data.json") ], Done tt))
  \/ (file_written e d /\ stdout_has_check_mark e = false
      /\ save_json e d output_path
         = ([ Makedirs "data"; OpenFile "data/rom-data.json";
              WriteJson "data/rom-data.json" d ], Uncaught UnicodeEncodeError))
  \/ (~ file_written e d
      /\ exists out x,
           save_json e d output_path = (out, Uncaught x)
           /\ writes out = [] /\ wrote_file out = false).
Proof.
  unfold file_written, save_json, output_path.
  change (dirname "data/rom-data.json") with "data".
  destruct (unit_result_ok (makedirs e "data")) as [[x ->] | ->].
  { right. right. split; [intros [H _]; discriminate H |].
    exists [], x. repeat split. }
  destruct (unit_result_ok (open_write e "data/rom-data.json")) as [[x ->] | ->].
  { right. right. split; [intros [_ [H _]]; discriminate H |].
    exists [Makedirs "data"], x. repeat split. }
  destruct (unit_result_ok (json_dump e "data/rom-data.json" d)) as [[x ->] | ->].
  { right. right. split; [intros [_ [_ H]]; discriminate H |].
    exists [Makedirs "data"; OpenFile "data/rom-data.json"], x. repeat split. }
  destruct (stdout_has_check_mark e).
  - left. repeat split.
  - right. left. repeat split.
Qed.

Lemma main_save_fails (e : env) (path : string) (wb : workbook) (d : rom_data)
    (out : list event) (x : exn) :
  located e path ->
  returns e path wb d ->
  save_json e d output_path = (out, Uncaught x) ->
  main e = (Print (MsgReading path) :: out, Uncaught x).
Proof.
  intros [Hpath Hfound] Hret Hsave.
  rewrite (main_found e path Hpath Hfound).
  rewrite (build_returns e path wb d (proj1 Hret) (returns_build e path wb d Hret)).
  cbn [io_bind]. rewrite Hsave. reflexivity.
Qed.

Lemma main_saved (e : env) (path : string) (wb : workbook) (d : rom_data) :
  located e path ->
  returns e path wb d ->
  file_written e d ->
  stdout_has_check_mark e = true ->
  (has_sheet "Drivers & Estimates" wb = true
   /\ main e = ((saved_lines path d ++ key_value_lines)%list, Done tt))
  \/ (has_sheet "Drivers & Estimates" wb = false
      /\ summary d = []
      /\ main e = (saved_lines path d, Uncaught KeyError)).
Proof.
  intros [Hpath Hfound] Hret Hdisk Hmark.
  destruct (has_sheet "Drivers & Estimates" wb) eqn:Hhas.
  - left. split; [reflexivity |].
    rewrite (main_with_drivers e path wb d Hpath Hfound Hret Hdisk Hmark Hhas).
    unfold saved_lines, key_value_lines. cbn [app]. do 2 f_equal.
    pose proof (returns_build e path wb d Hret) as Hbuild.
    unfold build_rom_data in Hbuild.
    apply bind_ok in Hbuild as [s [_ Hbuild]].
    apply bind_ok in Hbuild as [p [_ Hbuild]].
    apply bind_ok in Hbuild as [st [_ Hbuild]].
    apply Ok_inj in Hbuild. subst d. reflexivity.
  - right. split; [reflexivity |]. split.
    + pose proof (returns_build e path wb d Hret) as Hbuild.
      apply build_sections in Hbuild as [Hsum _].
      unfold extract_summary in Hsum. rewrite Hhas in Hsum.
      apply Ok_inj in Hsum. congruence.
    + apply (main_without_drivers e path wb d Hpath Hfound Hret Hdisk Hmark Hhas).
Qed.

(** What a run does once extraction has returned. *)
Lemma main_returned (e : env) (path : string) (wb : workbook) (d : rom_data) :
  located e path ->
  returns e path wb d ->
  (file_written e d /\ stdout_has_check_mark e = true
   /\ has_sheet "Drivers & Estimates" wb = true
   /\ main e = ((saved_lines path d ++ key_value_lines)%list, Done tt))
  \/ (file_written e d /\ stdout_has_check_mark e = true
      /\ has_sheet "Drivers & Estimates" wb = false
      /\ summary d = []
      /\ main e = (saved_lines path d, Uncaught KeyError))
  \/ (exists out x,
         save_json e d output_path = (out, Uncaught x)
         /\ main e = (Print (MsgReading path) :: out, Uncaught x)
         /\ ((file_written e d /\ stdout_has_check_mark e = false
              /\ writes out = [("data/rom-data.json", d)] /\ wrote_file out = true)
             \/ (~ file_written e d /\ writes out = [] /\ wrote_file out = false))).
Proof.
  intros Hloc Hret.
  destruct (save_json_cases e d)
    as [[Hdisk [Hmark _]] | [[Hdisk [Hmark Hsave]] | [Hdisk [out [x [Hsave [Hw Hf]]]]]]].
  - destruct (main_saved e path wb d Hloc Hret Hdisk Hmark)
      as [[Hhas Hmain] | [Hhas [Hsum Hmain]]].
    + left. auto.
    + right. left. auto.
  - right. right. eexists. eexists. split; [exact Hsave |]. split.
    + apply (main_save_fails e path wb d _ _ Hloc Hret Hsave).
    + left. split; [exact Hdisk | split; [exact Hmark | split; reflexivity]].
  - right. right. exists out, x. split; [exact Hsave |]. split.
    + apply (main_save_fails e path wb d _ _ Hloc Hret Hsave).
    + right. auto.
Qed.

(** X3.  Every run of [main] ends in one of five ways: no file found, the
    two usage lines and exit code 1; extraction raises, the reading line
    and that exception; extraction returns and [save_json] raises, the
    reading line, what [save_json] did until then, and that exception;
    the document is saved and the workbook has a "Drivers & Estimates"
    sheet, the full report and a normal end; the document is saved and the
    workbook has no such sheet, the report cut before the key values and
    [KeyError]. *)
Theorem main_outcomes (e : env) :
  (not_found e (rom_path_of e) = true
   /\ main e = ([Print MsgNotFound; Print MsgUsage], Exit 1))
  \/ (exists path x,
         located e path
         /\ snd (extract_rom_data e path) = Uncaught x
         /\ main e = ([Print (MsgReading path)], Uncaught x))
  \/ (exists path wb d out x,
         located e path /\ returns e path wb d
         /\ save_json e d "data/rom-data.json" = (out, Uncaught x)
         /\ main e = (Print (MsgReading path) :: out, Uncaught x))
  \/ (exists path wb d,
         located e path /\ returns e path wb d
         /\ file_written e d /\ stdout_has_check_mark e = true
         /\ has_sheet "Drivers & Estimates" wb = true
         /\ main e = ((saved_lines path d ++ key_value_lines)%list, Done tt))
  \/ (exists path wb d,
         located e path /\ returns e path wb d
         /\ file_written e d /\ stdout_has_check_mark e = true
         /\ has_sheet "Drivers & Estimates" wb = false
         /\ summary d = []
         /\ main e = (saved_lines path d, Uncaught KeyError)).
Proof.
  destruct (not_found e (rom_path_of e)) eqn:Hnf.
  - left. split; [reflexivity | apply main_not_found; exact Hnf].
  - right. destruct (rom_path_of e) as [path |] eqn:Hpath; [| discriminate Hnf].
    assert (Hloc : located e path) by (split; assumption).
    destruct (extract_rom_data_cases e path) as [[x Hx] | [wb [d Hret]]].
    + left. exists path, x. split; [exact Hloc |].
      assert (Hsnd : snd (extract_rom_data e path) = Uncaught x)
        by (rewrite Hx; reflexivity).
      split; [exact Hsnd |].
      apply main_extraction_fails; assumption.
    + right.
      destruct (main_returned e path wb d Hloc Hret)
        as [[Hdisk [Hmark [Hhas Hmain]]]
           | [[Hdisk [Hmark [Hhas [Hsum Hmain]]]]
             | [out [x [Hsave [Hmain _]]]]]].
      * right. left. exists path, wb, d. auto 7.
      * right. right. exists path, wb, d. auto 8.
      * left. exists path, wb, d, out, x. auto.
Qed.

(** X4.  [main] puts the document into a file exactly when it has located
    a workbook, extraction returns and the file system accepts
    [os.makedirs], [open] and [json.dump]; it then writes once, to
    [data/rom-data.json], the document extraction returned, also when the
    run dies later.  When one of the three steps raises, no document is
    written. *)
Theorem main_writes_iff_extracted (e : env) :
  (wrote_file (fst (main e)) = true <->
   exists path wb d, located e path /\ returns e path wb d /\ file_written e d)
  /\ (forall path wb d,
         located e path -> returns e path wb d -> file_written e d ->
         writes (fst (main e)) = [("data/rom-data.json", d)])
  /\ (forall path wb d,
         located e path -> returns e path wb d -> ~ file_written e d ->
         writes (fst (main e)) = []).
Proof.
  assert (Hwrites : forall path wb d,
             located e path -> returns e path wb d ->
             (file_written e d ->
              writes (fst (main e)) = [("data/rom-data.json", d)]
              /\ wrote_file (fst (main e)) = true)
             /\ (~ file_written e d ->
                 writes (fst (main e)) = [] /\ wrote_file (fst (main e)) = false)).
  { intros path wb d Hloc Hret.
    destruct (main_returned e path wb d Hloc Hret)
      as [[Hdisk [_ [_ Hmain]]]
         | [[Hdisk [_ [_ [_ Hmain]]]]
           | [out [x [_ [Hmain [[Hdisk [_ [Hw Hf]]] | [Hdisk [Hw Hf]]]]]]]]];
      rewrite Hmain; split; intros Hd; try contradiction; split;
      try reflexivity; cbn [fst writes wrote_file flat_map existsb app orb];
      try (fold (writes out); rewrite Hw; reflexivity);
      try exact Hf. }
  split; [split | split].
  - intros Hwrote.
    destruct (main_outcomes e)
      as [[_ Hmain] | [[path [x [_ [_ Hmain]]]]
                      | [[path [wb [d [out [x [Hloc [Hret _]]]]]]]
                        | [[path [wb [d [Hloc [Hret [Hdisk _]]]]]]
                          | [path [wb [d [Hloc [Hret [Hdisk _]]]]]]]]]].
    + rewrite Hmain in Hwrote. discriminate Hwrote.
    + rewrite Hmain in Hwrote. discriminate Hwrote.
    + exists path, wb, d. split; [exact Hloc |]. split; [exact Hret |].
      destruct (save_json_cases e d) as [[Hdisk _] | [[Hdisk _] | [Hdisk _]]];
        try exact Hdisk.
      destruct (proj2 (Hwrites path wb d Hloc Hret) Hdisk) as [_ Hno].
      congruence.
    + exists path, wb, d. auto.
    + exists path, wb, d. auto.
  - intros [path [wb [d [Hloc [Hret Hdisk]]]]].
    apply (proj1 (Hwrites path wb d Hloc Hret) Hdisk).
  - intros path wb d Hloc Hret Hdisk.
    apply (proj1 (Hwrites path wb d Hloc Hret) Hdisk).
  - intros path wb d Hloc Hret Hdisk.
    apply (proj2 (Hwrites path wb d Hloc Hret) Hdisk).
Qed.

(** X5.  [main] ends normally exactly when it has located a workbook that
    has a "Drivers & Estimates" sheet, extraction returns, the file system
    accepts the write and the terminal can print the check mark; the only
    exit code it ever gives is 1. *)
Theorem main_ends_normally_iff (e : env) :
  (snd (main e) = Done tt <->
   exists path wb d,
     located e path /\ returns e path wb d
     /\ has_sheet "Drivers & Estimates" wb = true
     /\ file_written e d /\ stdout_has_check_mark e = true)
  /\ (forall code, snd (main e) = Exit code -> code = 1).
Proof.
  split; [split |].
  - intros Hdone.
    destruct (main_outcomes e)
      as [[_ Hmain] | [[path [x [_ [_ Hmain]]]]
                      | [[path [wb [d [out [x [_ [_ [_ Hmain]]]]]]]]
                        | [[path [wb [d [Hloc [Hret [Hdisk [Hmark [Hhas _]]]]]]]]
                          | [path [wb [d [_ [_ [_ [_ [_ [_ Hmain]]]]]]]]]]]]].
    + rewrite Hmain in Hdone. discriminate Hdone.
    + rewrite Hmain in Hdone. discriminate Hdone.
    + rewrite Hmain in Hdone. discriminate Hdone.
    + exists path, wb, d. auto.
    + rewrite Hmain in Hdone. discriminate Hdone.
  - intros [path [wb [d [Hloc [Hret [Hhas [Hdisk Hmark]]]]]]].
    destruct (main_saved e path wb d Hloc Hret Hdisk Hmark) as [[_ Hmain] | [Hno _]].
    + rewrite Hmain. reflexivity.
    + congruence.
  - intros code Hexit.
    destruct (main_outcomes e)
      as [[_ Hmain] | [[path [x [_ [_ Hmain]]]]
                      | [[path [wb [d [out [x [_ [_ [_ Hmain]]]]]]]]
                        | [[path [wb [d [_ [_ [_ [_ [_ Hmain]]]]]]]]
                          | [path [wb [d [_ [_ [_ [_ [_ [_ Hmain]]]]]]]]]]]]];
      rewrite Hmain in Hexit; cbn in Hexit; congruence.
Qed.

Lemma main_writes_iff_extracted_witness :
  returns (full_disk sample_workbook) "rom.xlsx" sample_workbook sample_document
  /\ writes (fst (main (full_disk sample_workbook))) = []
  /\ fst (main (full_disk sample_workbook)) = [Print (MsgReading "rom.xlsx")].
Proof.
  split; [split; reflexivity |]. split; [| reflexivity].
  refine (proj2 (proj2 (main_writes_iff_extracted (full_disk sample_workbook)))
            "rom.xlsx" sample_workbook sample_document _ _ _).
  - split; reflexivity.
  - split; reflexivity.
  - intros [Hdir _]. discriminate Hdir.
Defined.

Lemma main_ends_normally_iff_witness :
  snd (main (run_on sample_workbook)) = Done tt
  /\ snd (main (plain_terminal sample_workbook)) = Uncaught UnicodeEncodeError
  /\ wrote_file (fst (main (plain_terminal sample_workbook))) = true.
Proof.
  split; [| split; reflexivity].
  refine (proj2 (proj1 (main_ends_normally_iff (run_on sample_workbook))) _).
  exists "rom.xlsx", sample_workbook, sample_document.
  repeat split.
Defined.

(** ** The summary block *)

Lemma reading_kind (row : list value) (v : num) :
  velocity_reading row = Some v -> v = NInt 60 \/ exists x, v = NFloat x.
Proof.
  unfold velocity_reading.
  destruct (truthy (cell row 0) && contains "velocity" (lower (str (cell row 0))));
    [| discriminate].
  destruct (nth_error row 5) as [c |]; [| discriminate].
  destruct (truthy c).
  - destruct (to_float c) as [x | err]; [| discriminate].
    intros H. injection H as <-. right. exists x. reflexivity.
  - intros H. injection H as <-. left. reflexivity.
Qed.

Lemma last_reading_kind (rows : list (list value)) (v : num) :
  (v = NInt 60 \/ exists x, v = NFloat x) ->
  last_reading rows v = NInt 60 \/ exists x, last_reading rows v = NFloat x.
Proof.
  revert v. induction rows as [| row rows IH]; intros v Hv; [exact Hv |].
  rewrite last_reading_cons. apply IH.
  destruct (velocity_reading row) as [v' |] eqn:E; [| exact Hv].
  apply (reading_kind row v' E).
Qed.

(** X6.  The "Drivers & Estimates" block never raises, whatever the cells
    hold.  In a returned document [summary] is empty when the sheet is
    absent; otherwise it has the eleven keys in their fixed order, every
    value but [targetVelocity] is the default, and [targetVelocity] is the
    integer 60 or a float. *)
Theorem summary_shape (wb : workbook) :
  (exists found, extract_summary wb = Ok found)
  /\ forall e path d,
       returns e path wb d ->
       (has_sheet "Drivers & Estimates" wb = false /\ summary d = [])
       \/ (has_sheet "Drivers & Estimates" wb = true
           /\ keys (summary d)
              = [ "investmentLow"; "investmentAvg"; "investmentHigh";
                  "weeksLow"; "weeksAvg"; "weeksHigh";
                  "sprintsLow"; "sprintsAvg"; "sprintsHigh";
                  "targetVelocity"; "blendedRate" ]
           /\ (forall k, k <> "targetVelocity" ->
                         dict_get k (summary d) = dict_get k summary_defaults)
           /\ (dict_get "targetVelocity" (summary d) = Some (NInt 60)
               \/ exists x, dict_get "targetVelocity" (summary d) = Some (NFloat x))).
Proof.
  destruct (has_sheet "Drivers & Estimates" wb) eqn:Hhas.
  - destruct (has_sheet_sheet _ _ Hhas) as [ws Hws].
    pose proof (extract_summary_drivers wb ws (conj Hhas Hws)) as Hsum.
    split; [eexists; exact Hsum |].
    intros e path d Hret. right. split; [reflexivity |].
    apply returns_build in Hret. apply build_sections in Hret.
    destruct Hret as [Hd _]. rewrite Hsum in Hd. apply Ok_inj in Hd.
    rewrite <- Hd. split; [reflexivity |]. split.
    + intros k Hk. apply dict_get_set_other. apply String.eqb_neq. congruence.
    + rewrite dict_get_set.
      destruct (last_reading_kind (iter_rows ws 1 20) (NInt 60)) as [H60 | [x Hx]].
      * left. reflexivity.
      * left. rewrite H60. reflexivity.
      * right. exists x. rewrite Hx. reflexivity.
  - split.
    + exists []. unfold extract_summary. rewrite Hhas. reflexivity.
    + intros e path d Hret. left. split; [reflexivity |].
      apply returns_build in Hret. apply build_sections in Hret.
      destruct Hret as [Hd _]. unfold extract_summary in Hd. rewrite Hhas in Hd.
      apply Ok_inj in Hd. congruence.
Qed.

(** ** When extraction returns *)

Lemma for_each_returns_iff {A S : Type} (step : S -> A -> result S)
    (safe : A -> bool) (rows : list A) :
  (forall acc row, In row rows ->
     ((exists acc', step acc row = Ok acc') <-> safe row = true)) ->
  forall acc,
    (exists final, for_each step rows acc = Ok final) <-> forallb safe rows = true.
Proof.
  induction rows as [| row rows IH]; intros Hstep acc; cbn [for_each forallb].
  - split; [reflexivity | intros _; exists acc; reflexivity].
  - assert (Hrest : forall acc' r, In r rows ->
               ((exists acc'', step acc' r = Ok acc'') <-> safe r = true)).
    { intros acc' r Hin. apply Hstep. right. exact Hin. }
    specialize (IH Hrest). rewrite andb_true_iff. split.
    + intros [final Hfinal]. apply bind_ok in Hfinal as [acc' [Hacc' Hfinal]].
      split.
      * apply (Hstep acc row (or_introl eq_refl)). exists acc'. exact Hacc'.
      * apply (IH acc'). exists final. exact Hfinal.
    + intros [Hrow Hrows].
      apply (Hstep acc row (or_introl eq_refl)) in Hrow as [acc' Hacc'].
      rewrite Hacc'. cbn [bind]. apply IH. exact Hrows.
Qed.

Ltac split_cells :=
  repeat match goal with
         | |- context [truthy ?c] => destruct (truthy c)
         | |- context [is_none ?c] => destruct (is_none c)
         | |- context [int ?c] => destruct (int c)
         | |- context [to_float ?c] => destruct (to_float c)
         | |- context [contains ?a ?b] => destruct (contains a b)
         | |- context [is_role ?r] => destruct (is_role r)
         end;
  cbn; split; intros Hgoal;
  try reflexivity; try discriminate Hgoal;
  try (eexists; reflexivity);
  try (destruct Hgoal as [? Hgoal]; discriminate Hgoal).

Lemma points_step_returns_iff (acc : dict phase) (row : list value) :
  row <> [] ->
  (exists acc', points_step acc row = Ok acc') <-> points_row_safe row = true.
Proof.
  intros Hrow.
  destruct row as [| c0 [| c1 [| c2 [| c3 rest]]]]; [congruence | | | |];
    unfold points_step, points_row_safe, int_converts, int_or_zero, getitem;
    cbn [nth_error bind cell nth List.length Nat.leb andb orb negb];
    split_cells.
Qed.

Lemma staffing_step_returns_iff (acc : list staff) (row : list value) :
  row <> [] ->
  (exists acc', staffing_step acc row = Ok acc') <-> staffing_row_safe row = true.
Proof.
  intros Hrow.
  unfold staffing_row_safe, staffing_row.
  rewrite <- (andb_assoc _ (nonempty _)), <- is_role_spec.
  destruct row as [| c0 [| c1 [| c2 rest]]]; [congruence | | |];
    unfold staffing_step, float_converts, float_or_zero, getitem;
    cbn [nth_error bind cell nth List.length Nat.leb andb orb negb];
    split_cells.
Qed.

Lemma loop_returns_iff {S : Type} (step : S -> list value -> result S)
    (safe : list value -> bool) (ws : worksheet) (a b : nat) (acc : S) :
  (forall acc' row, row <> [] ->
     ((exists acc'', step acc' row = Ok acc'') <-> safe row = true)) ->
  (exists final, for_each step (iter_rows ws a b) acc = Ok final)
  <-> forallb safe (iter_rows ws a b) = true.
Proof.
  intros Hstep. apply for_each_returns_iff.
  intros acc' row Hin. apply Hstep.
  pose proof (iter_rows_nonempty ws a b) as Hrows.
  rewrite Forall_forall in Hrows. apply Hrows. exact Hin.
Qed.

Lemma extract_phases_returns_iff (wb : workbook) :
  (exists found, extract_phases wb = Ok found) <-> points_safe wb = true.
Proof.
  unfold extract_phases, points_safe, rows_safe.
  destruct (has_sheet "Points" wb) eqn:Hhas.
  - destruct (has_sheet_sheet _ _ Hhas) as [ws Hws]. rewrite Hws. cbn [bind].
    rewrite <- (loop_returns_iff points_step points_row_safe ws 2 10 [])
      by (intros; apply points_step_returns_iff; assumption).
    split.
    + intros [found H]. apply bind_ok in H as [raw [Hraw _]]. exists raw. exact Hraw.
    + intros [raw Hraw]. rewrite Hraw. cbn [bind]. eexists. reflexivity.
  - split; [reflexivity | intros _; exists []; reflexivity].
Qed.

Lemma extract_staffing_returns_iff (wb : workbook) :
  (exists found, extract_staffing wb = Ok found) <-> fees_safe wb = true.
Proof.
  unfold extract_staffing, fees_safe, rows_safe.
  destruct (has_sheet "Fees & costs" wb) eqn:Hhas.
  - destruct (has_sheet_sheet _ _ Hhas) as [ws Hws]. rewrite Hws. cbn [bind].
    rewrite <- (loop_returns_iff staffing_step staffing_row_safe ws 10 25 [])
      by (intros; apply staffing_step_returns_iff; assumption).
    split.
    + intros [found H]. apply bind_ok in H as [raw [Hraw _]]. exists raw. exact Hraw.
    + intros [raw Hraw]. rewrite Hraw. cbn [bind]. eexists. reflexivity.
  - split; [reflexivity | intros _; exists []; reflexivity].
Qed.

Lemma build_returns_iff (date path : string) (wb : workbook) :
  (exists d, build_rom_data date path wb = Ok d)
  <-> points_safe wb = true /\ fees_safe wb = true.
Proof.
  rewrite <- extract_phases_returns_iff, <- extract_staffing_returns_iff.
  unfold build_rom_data. split.
  - intros [d H].
    apply bind_ok in H as [s [_ H]].
    apply bind_ok in H as [p [Hp H]].
    apply bind_ok in H as [st [Hst _]].
    split; eexists; eassumption.
  - intros [[p Hp] [st Hst]].
    destruct (proj1 (summary_shape wb)) as [s Hs].
    rewrite Hs, Hp, Hst. cbn [bind]. eexists. reflexivity.
Qed.

(** X7.  With a "Points" sheet, the points block returns exactly when
    every row among rows 2 to 10 with a truthy first cell has a second
    cell and, unless that cell is null, has four cells of which cells 2 to
    4 are each falsy or accepted by [int]. *)
Theorem points_block_returns_iff (wb : workbook) (ws : worksheet) :
  sheet_named "Points" wb ws ->
  (exists found, extract_phases wb = Ok found)
  <-> forall row, In row (iter_rows ws 2 10) -> points_row_safe row = true.
Proof.
  intros [Hhas Hws]. rewrite extract_phases_returns_iff.
  unfold points_safe, rows_safe. rewrite Hhas, Hws. apply forallb_forall.
Qed.

Lemma points_block_returns_iff_witness :
  (exists found, extract_phases repeated_phase_workbook = Ok found)
  /\ ~ exists found, extract_phases undecided_points_workbook = Ok found.
Proof.
  split.
  - refine (proj2 (points_block_returns_iff repeated_phase_workbook
                     repeated_phase_sheet _) _).
    + split; reflexivity.
    + apply forallb_forall. reflexivity.
  - intros Hreturns.
    refine (_ (proj1 (points_block_returns_iff undecided_points_workbook
                        [ [text "Phase"; text "Low"; text "High"; text "Features"];
                          [text "Phase One"; text "TBD"; VInt 20; VInt 3] ] _)
                 Hreturns [text "Phase One"; text "TBD"; VInt 20; VInt 3] _)).
    + discriminate.
    + split; reflexivity.
    + left. reflexivity.
Defined.

(** X8.  With a "Fees & costs" sheet, the staffing block returns exactly
    when every row among rows 10 to 25 with a truthy first cell has a
    second cell and, if the row is kept, has three cells of which the
    second is accepted by [float] and the third is falsy or accepted by
    [float]. *)
Theorem staffing_block_returns_iff (wb : workbook) (ws : worksheet) :
  sheet_named "Fees & costs" wb ws ->
  (exists found, extract_staffing wb = Ok found)
  <-> forall row, In row (iter_rows ws 10 25) -> staffing_row_safe row = true.
Proof.
  intros [Hhas Hws]. rewrite extract_staffing_returns_iff.
  unfold fees_safe, rows_safe. rewrite Hhas, Hws. apply forallb_forall.
Qed.

Lemma staffing_block_returns_iff_witness :
  (exists found, extract_staffing sample_workbook = Ok found)
  /\ ~ exists found, extract_staffing undecided_fees_workbook = Ok found.
Proof.
  split.
  - refine (proj2 (staffing_block_returns_iff sample_workbook fees_sheet _) _).
    + split; reflexivity.
    + apply forallb_forall. reflexivity.
  - intros Hreturns.
    refine (_ (proj1 (staffing_block_returns_iff undecided_fees_workbook
                        (repeat [] 9 ++ [ [text "Analyst"; VInt 2; text "n/a"] ])%list _)
                 Hreturns [text "Analyst"; VInt 2; text "n/a"] _)).
    + discriminate.
    + split; reflexivity.
    + left. reflexivity.
Defined.


Lemma row_in_range (ws : worksheet) (a b r : nat) :
  (a <= r <= b)%nat -> In (row_values ws r) (iter_rows ws a b).
Proof.
  intros Hr. unfold iter_rows. apply in_map. apply in_seq. lia.
Qed.

(** X10.  A "Points" sheet with fewer than four columns never yields a
    document once one of rows 2 to 10 has a truthy first cell and, if the
    sheet has a second column, a non-null second cell: [row[1]], [row[2]]
    or [row[3]] is out of range (or a conversion fails first). *)
Theorem narrow_points_sheet_fails (wb : workbook) (ws : worksheet) (r : nat) :
  sheet_named "Points" wb ws ->
  (max_column ws < 4)%nat ->
  (2 <= r <= 10)%nat ->
  truthy (cell (row_values ws r) 0) = true ->
  (max_column ws < 2)%nat \/ is_none (cell (row_values ws r) 1) = false ->
  (forall e path d, ~ returns e path wb d)
  /\ exists x, extract_phases wb = Raise x.
Proof.
  intros [Hhas Hws] Hnarrow Hr Hname Hlow.
  assert (Hunsafe : points_safe wb = false).
  { unfold points_safe, rows_safe. rewrite Hhas, Hws.
    apply not_true_is_false. intros Hall.
    rewrite forallb_forall in Hall.
    specialize (Hall _ (row_in_range ws 2 10 r Hr)).
    unfold points_row_safe in Hall.
    rewrite Hname, (row_values_length ws r) in Hall. cbn [negb orb] in Hall.
    destruct (Nat.leb_spec 4 (max_column ws)) as [Hwide | _]; [lia |].
    destruct (Nat.leb_spec 2 (max_column ws)) as [Htwo | Hone];
      [| discriminate Hall].
    destruct Hlow as [Hlow | Hlow]; [lia |].
    rewrite Hlow in Hall. discriminate Hall. }
  split.
  - intros e path d Hret. apply returns_build in Hret.
    assert (Hsafe : points_safe wb = true /\ fees_safe wb = true).
    { apply (build_returns_iff (today e) path wb). exists d. exact Hret. }
    destruct Hsafe as [Hsafe _]. congruence.
  - destruct (extract_phases wb) as [found | x] eqn:E; [| exists x; reflexivity].
    assert (Hsafe : points_safe wb = true)
      by (apply extract_phases_returns_iff; exists found; exact E).
    congruence.
Qed.

Lemma narrow_points_sheet_fails_witness :
  (forall e path d, ~ returns e path [("Points", narrow_points_sheet)] d)
  /\ exists x, extract_phases [("Points", narrow_points_sheet)] = Raise x.
Proof.
  apply (narrow_points_sheet_fails [("Points", narrow_points_sheet)]
           narrow_points_sheet 2).
  - split; reflexivity.
  - cbn. lia.
  - lia.
  - reflexivity.
  - right. reflexivity.
Defined.

(** ** Text *)

Lemma prefix_empty (s : string) : String.prefix "" s = true.
Proof. destruct s; reflexivity. Qed.

Lemma prefix_split (n t : string) :
  String.prefix n t = true <-> exists b, t = n ++ b.
Proof.
  revert n. induction t as [| c t IH]; intros n.
  - destruct n as [| a n]; cbn; split; try discriminate.
    + intros _. exists "". reflexivity.
    + intros _. reflexivity.
    + intros [b Hb]. discriminate Hb.
  - destruct n as [| a n]; cbn.
    + split; [intros _; exists (String c t); reflexivity | reflexivity].
    + destruct (ascii_dec a c) as [-> | Hdiff].
      * rewrite IH. split; intros [b Hb]; exists b; congruence.
      * split; [discriminate |]. intros [b Hb]. congruence.
Qed.

Lemma contains_cons (n : string) (c : ascii) (t : string) :
  contains n (String c t) = String.prefix n (String c t) || contains n t.
Proof. reflexivity. Qed.

Lemma contains_nil (n : string) : contains n "" = String.prefix n "".
Proof. cbn. apply orb_false_r. Qed.

(** [needle in hay] holds exactly when [hay] has [needle] as an infix. *)
Lemma contains_iff (n t : string) :
  contains n t = true <-> exists a b, t = a ++ n ++ b.
Proof.
  induction t as [| c t IH].
  - rewrite contains_nil, prefix_split. split.
    + intros [b Hb]. exists "", b. exact Hb.
    + intros [a [b Hab]]. destruct a; [| discriminate Hab]. exists b. exact Hab.
  - rewrite contains_cons, orb_true_iff, prefix_split, IH. split.
    + intros [[b Hb] | [a [b Hab]]].
      * exists "", b. exact Hb.
      * exists (String c a), b. cbn. congruence.
    + intros [a [b Hab]]. destruct a as [| c' a].
      * left. exists b. exact Hab.
      * right. cbn in Hab. injection Hab as _ Hab. exists a, b. exact Hab.
Qed.

Lemma lower_app (a b : string) : lower (a ++ b) = lower a ++ lower b.
Proof.
  induction a as [| c a IH]; cbn; [reflexivity | rewrite IH; reflexivity].
Qed.

Lemma lower_split (s x y : string) :
  lower s = x ++ y ->
  exists s1 s2, s = s1 ++ s2 /\ lower s1 = x /\ lower s2 = y.
Proof.
  revert s. induction x as [| c x IH]; intros s H.
  - exists "", s. repeat split. exact H.
  - destruct s as [| d s]; [discriminate H |].
    cbn in H. injection H as Hc Hrest.
    destruct (IH s Hrest) as [s1 [s2 [-> [H1 H2]]]].
    exists (String d s1), s2. cbn. repeat split; congruence.
Qed.

(** A keyword test of the script: [word in s.lower()] holds exactly when
    [s] has an infix that is [word] up to letter case. *)
Lemma mentions_iff (word s : string) :
  contains word (lower s) = true <->
  exists a w b, s = a ++ w ++ b /\ lower w = word.
Proof.
  rewrite contains_iff. split.
  - intros [a' [b' H]].
    destruct (lower_split s a' (word ++ b') H) as [a [rest [-> [_ Hrest]]]].
    destruct (lower_split rest word b' Hrest) as [w [b [-> [Hw _]]]].
    exists a, w, b. split; [reflexivity | exact Hw].
  - intros [a [w [b [-> <-]]]]. exists (lower a), (lower b).
    rewrite !lower_app. reflexivity.
Qed.

Lemma lstrip_suffix (s : string) : exists a, s = a ++ lstrip s.
Proof.
  induction s as [| c s [a IH]]; cbn.
  - exists "". reflexivity.
  - destruct (is_space c).
    + exists (String c a). cbn. congruence.
    + exists "". reflexivity.
Qed.

Lemma rstrip_prefix (s : string) : exists b, s = rstrip s ++ b.
Proof.
  induction s as [| c s [b IH]]; cbn.
  - exists "". reflexivity.
  - destruct (rstrip s) as [| k kept].
    + destruct (is_space c).
      * exists (String c s). reflexivity.
      * exists s. reflexivity.
    + exists b. cbn. cbn in IH. congruence.
Qed.

Lemma strip_infix (s : string) : exists a b, s = a ++ strip s ++ b.
Proof.
  unfold strip. destruct (lstrip_suffix s) as [a Ha].
  destruct (rstrip_prefix (lstrip s)) as [b Hb].
  exists a, b. congruence.
Qed.

Lemma append_assoc (a b c : string) : (a ++ b) ++ c = a ++ (b ++ c).
Proof.
  induction a as [| x a IH]; cbn; [reflexivity | rewrite IH; reflexivity].
Qed.

(** A keyword found in the stripped text is found in the text. *)
Lemma mentions_strip (word s : string) :
  contains word (lower (strip s)) = true -> contains word (lower s) = true.
Proof.
  rewrite !mentions_iff. intros [a [w [b [Hs Hw]]]].
  destruct (strip_infix s) as [a' [b' Hs']]. rewrite Hs in Hs'.
  exists (a' ++ a), w, (b ++ b'). split; [| exact Hw].
  rewrite Hs'. rewrite !append_assoc. reflexivity.
Qed.

Lemma rstrip_idempotent (s : string) : rstrip (rstrip s) = rstrip s.
Proof.
  induction s as [| c s IH]; [reflexivity |]. cbn.
  destruct (rstrip s) as [| k kept] eqn:E.
  - destruct (is_space c) eqn:Ec; cbn; [reflexivity |]. rewrite Ec. reflexivity.
  - cbn [rstrip]. cbn [rstrip] in IH. rewrite IH. reflexivity.
Qed.

Lemma lstrip_head (s : string) :
  match lstrip s with
  | EmptyString => True
  | String c _ => is_space c = false
  end.
Proof.
  induction s as [| c s IH]; cbn; [exact I |].
  destruct (is_space c) eqn:Ec; [exact IH | exact Ec].
Qed.

Lemma rstrip_head (c : ascii) (s : string) :
  is_space c = false -> exists rest, rstrip (String c s) = String c rest.
Proof.
  intros Hc. cbn. destruct (rstrip s) as [| k kept].
  - rewrite Hc. exists "". reflexivity.
  - exists (String k kept). reflexivity.
Qed.

(** [strip] leaves nothing to strip. *)
Lemma strip_idempotent (s : string) : strip (strip s) = strip s.
Proof.
  unfold strip. pose proof (lstrip_head s) as Hhead.
  destruct (lstrip s) as [| c rest] eqn:E; [reflexivity |].
  destruct (rstrip_head c rest Hhead) as [kept Hkept].
  rewrite Hkept. cbn [lstrip]. rewrite Hhead, <- Hkept.
  apply rstrip_idempotent.
Qed.

Lemma contains_char (c a : ascii) (t : string) :
  contains (String c "") (String a t) = Ascii.eqb a c || contains (String c "") t.
Proof.
  rewrite contains_cons. f_equal. cbn.
  destruct (ascii_dec c a) as [-> | Hdiff].
  - rewrite Ascii.eqb_refl. apply prefix_empty.
  - symmetry. apply Ascii.eqb_neq. congruence.
Qed.

Lemma remove_char_gone (c : ascii) (s : string) :
  contains (String c "") (remove_char c s) = false.
Proof.
  induction s as [| a s IH]; [reflexivity |]. cbn [remove_char].
  destruct (Ascii.eqb a c) eqn:E; [exact IH |].
  rewrite contains_char, E, IH. reflexivity.
Qed.

Lemma remove_char_keeps_absent (c d : ascii) (s : string) :
  contains (String c "") s = false ->
  contains (String c "") (remove_char d s) = false.
Proof.
  induction s as [| a s IH]; [intros _; reflexivity |].
  rewrite contains_char, orb_false_iff. intros [Ha Hs]. cbn [remove_char].
  destruct (Ascii.eqb a d); [apply IH, Hs |].
  rewrite contains_char, Ha. apply IH, Hs.
Qed.

(** [os.path.basename]: the result holds no slash, and the path is the
    result after a directory part that is empty or ends in a slash. *)
Lemma basename_no_slash (path : string) : contains "/" (basename path) = false.
Proof.
  induction path as [| c rest IH]; [reflexivity |]. cbn [basename].
  destruct (contains "/" rest) eqn:Erest; [exact IH |].
  destruct (Ascii.eqb c "/") eqn:Ec; [exact Erest |].
  rewrite contains_char, Ec, Erest. reflexivity.
Qed.

Lemma basename_suffix (path : string) :
  exists dir,
    path = dir ++ basename path
    /\ (dir = "" \/ exists parent, dir = parent ++ "/").
Proof.
  induction path as [| c rest [dir [Hrest Hdir]]]; cbn [basename].
  - exists "". split; [reflexivity | left; reflexivity].
  - destruct (contains "/" rest) eqn:Erest.
    + exists (String c dir). split; [cbn; congruence |]. right.
      destruct Hdir as [-> | [parent ->]].
      * cbn in Hrest. rewrite Hrest, basename_no_slash in Erest. discriminate Erest.
      * exists (String c parent). reflexivity.
    + destruct (Ascii.eqb c "/") eqn:Ec.
      * apply Ascii.eqb_eq in Ec. subst c.
        exists "/". split; [reflexivity | right; exists ""; reflexivity].
      * exists "". split; [reflexivity | left; reflexivity].
Qed.

(** ** Invariants of the returned document *)

Lemma phases_of_returned (e : env) (path : string) (wb : workbook) (d : rom_data) :
  returns e path wb d ->
  (has_sheet "Points" wb = false /\ phases d = [])
  \/ exists ws,
       sheet_named "Points" wb ws
       /\ phases_built (filter points_row (iter_rows ws 2 10)) (phases d).
Proof.
  intros Hret. apply returns_build in Hret. apply build_sections in Hret.
  destruct Hret as [_ [Hphases _]]. unfold extract_phases in Hphases.
  destruct (has_sheet "Points" wb) eqn:Hhas.
  - right. destruct (has_sheet_sheet _ _ Hhas) as [ws Hws]. exists ws.
    split; [split; assumption |].
    rewrite Hws in Hphases. cbn [bind] in Hphases.
    apply bind_ok in Hphases as [found [Hloop Hfound]].
    assert (Hd : phases d = found).
    { destruct found; apply Ok_inj in Hfound; congruence. }
    rewrite Hd. apply points_loop; [apply iter_rows_nonempty | exact Hloop].
  - left. split; [reflexivity |]. apply Ok_inj in Hphases. congruence.
Qed.

Lemma staffing_of_returned (e : env) (path : string) (wb : workbook) (d : rom_data) :
  returns e path wb d ->
  (has_sheet "Fees & costs" wb = false /\ staffing d = [])
  \/ exists ws,
       sheet_named "Fees & costs" wb ws
       /\ Forall2 staff_of_row (filter staffing_row (iter_rows ws 10 25)) (staffing d).
Proof.
  intros Hret. apply returns_build in Hret. apply build_sections in Hret.
  destruct Hret as [_ [_ [Hstaff _]]]. unfold extract_staffing in Hstaff.
  destruct (has_sheet "Fees & costs" wb) eqn:Hhas.
  - right. destruct (has_sheet_sheet _ _ Hhas) as [ws Hws]. exists ws.
    split; [split; assumption |].
    rewrite Hws in Hstaff. cbn [bind] in Hstaff.
    apply bind_ok in Hstaff as [found [Hloop Hfound]].
    apply staffing_loop in Hloop as [added [Hacc Hadded]];
      [| apply iter_rows_nonempty].
    cbn in Hacc. subst found.
    assert (Hd : staffing d = added).
    { destruct added; apply Ok_inj in Hfound; congruence. }
    rewrite Hd. exact Hadded.
  - left. split; [reflexivity |]. apply Ok_inj in Hstaff. congruence.
Qed.

Lemma iter_rows_length (ws : worksheet) (a b : nat) :
  List.length (iter_rows ws a b) = (b + 1 - a)%nat.
Proof.
  unfold iter_rows. rewrite length_map, length_seq. reflexivity.
Qed.

Lemma distinct_In (names : list string) (k : string) :
  In k (distinct names) -> In k names.
Proof.
  induction names as [| n names IH] using rev_ind; [intros [] |].
  rewrite distinct_snoc, in_app_iff.
  destruct (existsb (String.eqb n) (distinct names)).
  - intros H. left. apply IH, H.
  - rewrite in_app_iff. intros [H | H]; [left; apply IH, H | right; exact H].
Qed.

Lemma distinct_length (names : list string) :
  (List.length (distinct names) <= List.length names)%nat.
Proof.
  induction names as [| n names IH] using rev_ind; [reflexivity |].
  rewrite distinct_snoc, length_app. cbn [List.length].
  destruct (existsb (String.eqb n) (distinct names)); [lia |].
  rewrite length_app. cbn [List.length]. lia.
Qed.

(** X11.  In every returned document [phases] has at most nine keys, and no
    key holds a space or an ampersand. *)
Theorem phases_keys_clean (e : env) (path : string) (wb : workbook) (d : rom_data) :
  returns e path wb d ->
  (List.length (phases d) <= 9)%nat
  /\ forall k, In k (keys (phases d)) ->
               contains " " k = false /\ contains "&" k = false.
Proof.
  intros Hret.
  destruct (phases_of_returned e path wb d Hret)
    as [[_ Hnone] | [ws [_ [_ [Hkeys _]]]]].
  - rewrite Hnone. split; [cbn; lia | intros k []].
  - split.
    + replace (List.length (phases d)) with (List.length (keys (phases d)))
        by apply length_map.
      rewrite Hkeys.
      pose proof (distinct_length (map row_name (filter points_row (iter_rows ws 2 10)))) as H1.
      pose proof (filter_length_le points_row (iter_rows ws 2 10)) as H2.
      rewrite length_map in H1. rewrite iter_rows_length in H2. lia.
    + intros k Hk. rewrite Hkeys in Hk. apply distinct_In in Hk.
      apply in_map_iff in Hk as [row [<- _]].
      unfold row_name, phase_name. split.
      * apply remove_char_keeps_absent, remove_char_gone.
      * apply remove_char_gone.
Qed.

Lemma phases_keys_clean_witness :
  exists d,
    returns (run_on sample_workbook) "rom.xlsx" sample_workbook d
    /\ keys (phases d) = ["PhaseOne"; "PhaseTwo"]
    /\ forall k, In k (keys (phases d)) ->
                 contains " " k = false /\ contains "&" k = false.
Proof.
  eexists. split; [split; reflexivity |]. split; [reflexivity |].
  refine (proj2 (phases_keys_clean (run_on sample_workbook) "rom.xlsx"
                   sample_workbook _ _)).
  split; reflexivity.
Defined.

Lemma Forall2_right {A B : Type} (R : A -> B -> Prop) (P : A -> Prop) (Q : B -> Prop)
    (xs : list A) (ys : list B) :
  (forall x y, P x -> R x y -> Q y) ->
  Forall P xs -> Forall2 R xs ys -> Forall Q ys.
Proof.
  intros HPQ HP HR. induction HR as [| x y xs ys Hxy _ IH]; [constructor |].
  constructor.
  - apply (HPQ x y); [apply (Forall_inv HP) | exact Hxy].
  - apply IH. apply (Forall_inv_tail HP).
Qed.

(** X12.  In every returned document [staffing] has at most sixteen
    entries.  Each role is not empty, has no white space at either end, is
    not the placeholder and does not mention a total in any letter case;
    each [fte] is a float; each [costRate] is a float or the integer 0. *)
Theorem staffing_entries_invariant
    (e : env) (path : string) (wb : workbook) (d : rom_data) :
  returns e path wb d ->
  (List.length (staffing d) <= 16)%nat
  /\ Forall (fun s =>
               nonempty (role s) = true
               /\ strip (role s) = role s
               /\ role s <> "Add rows as necessary"
               /\ contains "total" (lower (role s)) = false
               /\ (exists x, fte s = NFloat x)
               /\ (costRate s = NInt 0 \/ exists x, costRate s = NFloat x))
            (staffing d).
Proof.
  intros Hret.
  destruct (staffing_of_returned e path wb d Hret) as [[_ Hnone] | [ws [_ Hkept]]].
  - rewrite Hnone. split; [cbn; lia | constructor].
  - split.
    + rewrite <- (Forall2_length Hkept).
      pose proof (filter_length_le staffing_row (iter_rows ws 10 25)) as H.
      rewrite iter_rows_length in H. lia.
    + refine (Forall2_right staff_of_row (fun row => staffing_row row = true) _
                _ _ _ _ Hkept).
      * intros row s Hrow [Hrole [[x [_ Hfte]] Hrate]].
        unfold staffing_row in Hrow.
        apply andb_prop in Hrow as [Hrow Hplace].
        apply andb_prop in Hrow as [Hrow Hnonempty].
        apply andb_prop in Hrow as [_ Htotal].
        rewrite Hrole. repeat split.
        -- exact Hnonempty.
        -- apply strip_idempotent.
        -- intros Heq. rewrite Heq in Hplace. discriminate Hplace.
        -- apply not_true_is_false. intros Hmention.
           apply mentions_strip in Hmention. rewrite Hmention in Htotal.
           discriminate Htotal.
        -- exists x. exact Hfte.
        -- destruct Hrate as [[_ [y [_ Hy]]] | [_ Hzero]].
           ++ right. exists y. exact Hy.
           ++ left. exact Hzero.
      * apply Forall_forall. intros row Hin. apply filter_In in Hin. apply Hin.
Qed.

Lemma staffing_entries_invariant_witness :
  exists d,
    returns (run_on sample_workbook) "rom.xlsx" sample_workbook d
    /\ map role (staffing d) = ["Analyst"; "Architect"]
    /\ Forall (fun s => strip (role s) = role s
                        /\ contains "total" (lower (role s)) = false)
         (staffing d).
Proof.
  eexists. split; [split; reflexivity |]. split; [reflexivity |].
  refine (Forall_impl _ _
            (proj2 (staffing_entries_invariant (run_on sample_workbook) "rom.xlsx"
                      sample_workbook _ _))).
  - intros s [_ [Hstrip [_ [Htotal _]]]]. split; assumption.
  - split; reflexivity.
Defined.

Lemma nonempty_infix (a w b : string) :
  nonempty w = true -> nonempty (a ++ w ++ b) = true.
Proof.
  intros Hw. destruct a; [| reflexivity]. destruct w; [discriminate Hw | reflexivity].
Qed.

Lemma reading_exists (rows : list (list value)) (v : num) :
  last_reading rows v <> v ->
  exists row, In row rows /\ velocity_reading row <> None.
Proof.
  revert v. induction rows as [| row rows IH]; intros v Hv.
  - contradiction Hv. reflexivity.
  - rewrite last_reading_cons in Hv.
    destruct (velocity_reading row) as [v' |] eqn:E.
    + exists row. split; [left; reflexivity | congruence].
    + destruct (IH v Hv) as [r [Hin Hr]]. exists r. split; [right; exact Hin | exact Hr].
Qed.

(** X13.  The velocity keyword is found in any letter case, anywhere in the
    first cell.  With a "Drivers & Estimates" sheet and a returned
    document: a row among rows 1 to 20 whose first cell is a text with an
    infix spelling "velocity" up to letter case, whose sixth cell is truthy
    and converts, and after which no row has a reading, gives
    [targetVelocity] that float; and when [summary] differs from the
    defaults, some row among rows 1 to 20 has a truthy first cell with such
    an infix. *)
Theorem velocity_keyword_any_case
    (e : env) (path : string) (wb : workbook) (ws : worksheet) (d : rom_data) :
  returns e path wb d ->
  sheet_named "Drivers & Estimates" wb ws ->
  (forall r a w b as_int as_float c x,
      (1 <= r <= 20)%nat ->
      cell (row_values ws r) 0 = VText (a ++ w ++ b) as_int as_float ->
      lower w = "velocity" ->
      nth_error (row_values ws r) 5 = Some c ->
      truthy c = true ->
      to_float c = Ok x ->
      Forall (fun later => velocity_reading later = None) (iter_rows ws (r + 1) 20) ->
      dict_get "targetVelocity" (summary d) = Some (NFloat x))
  /\ (summary d <> summary_defaults ->
      exists r a w b,
        (1 <= r <= 20)%nat
        /\ truthy (cell (row_values ws r) 0) = true
        /\ str (cell (row_values ws r) 0) = a ++ w ++ b
        /\ lower w = "velocity").
Proof.
  intros Hret Hsheet.
  apply returns_build in Hret. apply build_sections in Hret.
  destruct Hret as [Hsum _].
  rewrite (extract_summary_drivers wb ws Hsheet) in Hsum.
  apply Ok_inj in Hsum. rewrite <- Hsum. split.
  - intros r a w b as_int as_float c x Hr Hfirst Hw Hsixth Htruthy Hfloat Hlater.
    assert (Hreading : velocity_reading (row_values ws r) = Some (NFloat x)).
    { unfold velocity_reading. rewrite Hfirst. cbn [truthy str].
      rewrite nonempty_infix by (destruct w; [discriminate Hw | reflexivity]).
      rewrite (proj2 (mentions_iff "velocity" (a ++ w ++ b)))
        by (exists a, w, b; split; [reflexivity | exact Hw]).
      cbn [andb]. rewrite Hsixth, Htruthy, Hfloat. reflexivity. }
    rewrite (iter_rows_split ws 1 r 20) by lia.
    rewrite (iter_rows_last ws r) by lia.
    rewrite !last_reading_app, last_reading_cons, Hreading.
    rewrite last_reading_silent by exact Hlater. apply dict_get_set.
  - intros Hchanged.
    destruct (reading_exists (iter_rows ws 1 20) (NInt 60)) as [row [Hin Hrow]].
    { intros Hsame. apply Hchanged. rewrite Hsame. reflexivity. }
    unfold iter_rows in Hin. apply in_map_iff in Hin as [r [<- Hr]].
    apply in_seq in Hr. unfold velocity_reading in Hrow.
    destruct (truthy (cell (row_values ws r) 0)
              && contains "velocity" (lower (str (cell (row_values ws r) 0)))) eqn:E;
      [| contradiction Hrow; reflexivity].
    apply andb_prop in E as [Htruthy Hmention].
    apply mentions_iff in Hmention as [a [w [b [Hstr Hw]]]].
    exists r, a, w, b. repeat split; try assumption; lia.
Qed.

Lemma velocity_keyword_any_case_witness :
  exists d,
    returns (run_on capitals_workbook) "rom.xlsx" capitals_workbook d
    /\ dict_get "targetVelocity" (summary d)
       = Some (NFloat (S754_finite false 5277655813324800 (-46))).
Proof.
  eexists. split; [split; reflexivity |].
  refine (proj1 (velocity_keyword_any_case (run_on capitals_workbook) "rom.xlsx"
                   capitals_workbook capitals_sheet _ _ _)
            2%nat "TEAM " "VELOCITY" " (pts)" None None (VInt 75) _ _ _ _ _ _ _ _).
  - split; reflexivity.
  - split; reflexivity.
  - lia.
  - reflexivity.
  - reflexivity.
  - reflexivity.
  - reflexivity.
  - reflexivity.
  - repeat constructor.
Defined.

(** X14.  In every returned document [meta] holds the run's date, the
    fixed version, client and project, and as [sourceFile] the last
    component of the path: it holds no slash, and the path is [sourceFile]
    after a directory part that is empty or ends in a slash.  [team] is
    empty. *)
Theorem meta_of_returned (e : env) (path : string) (wb : workbook) (d : rom_data) :
  returns e path wb d ->
  lastUpdated (meta d) = today e
  /\ version (meta d) = "1.0"
  /\ client (meta d) = "MAHLE"
  /\ project (meta d) = "AI Finance Transformation"
  /\ contains "/" (sourceFile (meta d)) = false
  /\ (exists dir,
         path = dir ++ sourceFile (meta d)
         /\ (dir = "" \/ exists parent, dir = parent ++ "/"))
  /\ team d = [].
Proof.
  intros Hret. apply returns_build in Hret. unfold build_rom_data in Hret.
  apply bind_ok in Hret as [s [_ Hret]].
  apply bind_ok in Hret as [p [_ Hret]].
  apply bind_ok in Hret as [st [_ Hret]].
  apply Ok_inj in Hret. subst d. cbn [meta lastUpdated version client project
                                       sourceFile team].
  repeat split.
  - apply basename_no_slash.
  - apply basename_suffix.
Qed.

Lemma meta_of_returned_witness :
  exists d,
    returns (search_env sample_workbook) "../archive/ROM v2.xlsx" sample_workbook d
    /\ sourceFile (meta d) = "ROM v2.xlsx"
    /\ contains "/" (sourceFile (meta d)) = false.
Proof.
  eexists. split; [split; reflexivity |]. split; [reflexivity |].
  refine (proj1 (proj2 (proj2 (proj2 (proj2
            (meta_of_returned (search_env sample_workbook) "../archive/ROM v2.xlsx"
               sample_workbook _ _)))))).
  split; reflexivity.
Defined.
